(** * Browser lifecycle manager and tool handlers of the Playwright MCP server

    A shallow embedding of [src/browser_manager.py] (the [BrowserManager]
    singleton) and of the [navigate] and [screenshot] tools of
    [src/server.py], together with the properties of the specification
    that concern them.

    Python objects owned by the Playwright library (driver, browser,
    context, page) live in a store indexed by object identity; the manager
    keeps references into that store, exactly as the Python attributes
    [_playwright], [_browser] and [_page] keep references to objects.
    Awaited library calls may raise: what each call raises, if anything, is
    read from an explicit environment record passed to the operation.
    Coroutines are run to completion one at a time, so [asyncio.Lock] is
    always free when an operation starts; interleavings are not modelled. *)

From Stdlib Require Import ZArith Lia Ascii String DecimalString.
From stdpp Require Import base option list strings.

Local Open Scope string_scope.
Local Open Scope Z_scope.

(** ** Python strings

    Strings are sequences of code points below 256. *)

Module PyStr.

(** [str(n)] for an [int]. *)
Definition of_int (n : Z) : string := NilZero.string_of_int (Z.to_int n).

(** [s.startswith(p)]. *)
Fixpoint startswith (s p : string) : bool :=
  match p, s with
  | EmptyString, _ => true
  | String _ _, EmptyString => false
  | String c p', String d s' => if Ascii.eqb c d then startswith s' p' else false
  end.

(** [p in s] for strings. *)
Fixpoint contains (s p : string) : bool :=
  if startswith s p then true
  else match s with
       | EmptyString => false
       | String _ s' => contains s' p
       end.

(** [c.isspace()] on code points below 256. *)
Definition isspace (c : ascii) : bool :=
  let n := N_of_ascii c in
  ((9 <=? n) && (n <=? 13) || (28 <=? n) && (n <=? 32)
   || (n =? 133) || (n =? 160))%N.

Fixpoint lstrip (s : string) : string :=
  match s with
  | String c s' => if isspace c then lstrip s' else s
  | EmptyString => EmptyString
  end.

(** Drops the trailing white space: the result is empty exactly when
    everything from here on is white space. *)
Fixpoint rstrip (s : string) : string :=
  match s with
  | EmptyString => EmptyString
  | String c s' =>
      match rstrip s' with
      | EmptyString => if isspace c then EmptyString else String c EmptyString
      | r => String c r
      end
  end.

(** [s.strip()]. *)
Definition strip (s : string) : string := rstrip (lstrip s).

(** [c.lower()] on code points below 256: the ASCII capitals and the
    Latin-1 capitals other than the multiplication sign. *)
Definition lower_char (c : ascii) : ascii :=
  let n := N_of_ascii c in
  if ((65 <=? n) && (n <=? 90)
      || (192 <=? n) && (n <=? 222) && negb (n =? 215))%N
  then ascii_of_N (n + 32) else c.

(** [s.lower()]. *)
Fixpoint lower (s : string) : string :=
  match s with
  | EmptyString => EmptyString
  | String c s' => String (lower_char c) (lower s')
  end.

(** Truth value of a string: [bool(s)]. *)
Definition truthy (s : string) : bool :=
  match s with EmptyString => false | _ => true end.

(** [sep.join(l)]. *)
Fixpoint join (sep : string) (l : list string) : string :=
  match l with
  | [] => ""
  | [x] => x
  | x :: l' => x ++ sep ++ join sep l'
  end.

(** [s.rfind(".")]: the index of the last dot, if there is one. *)
Fixpoint rfind_dot (s : string) : option nat :=
  match s with
  | EmptyString => None
  | String c s' =>
      match rfind_dot s' with
      | Some i => Some (S i)
      | None => if Ascii.eqb c "."%char then Some O else None
      end
  end.

(** [s[i:]]. *)
Fixpoint drop (i : nat) (s : string) : string :=
  match i, s with
  | O, _ => s
  | S i', String _ s' => drop i' s'
  | S _, EmptyString => EmptyString
  end.

(** [s.split("/")]. *)
Fixpoint split_slash (s : string) : list string :=
  match s with
  | EmptyString => [""]
  | String c s' =>
      if Ascii.eqb c "/"%char then "" :: split_slash s'
      else match split_slash s' with
           | x :: l => String c x :: l
           | [] => [String c ""]
           end
  end.

End PyStr.

(** ** Exceptions

    The classes the two modules raise, catch or test with [isinstance].
    [PwError] is [playwright.async_api.Error] and [PwTimeoutError] is
    [playwright.async_api.TimeoutError], a subclass of [PwError] that is
    unrelated to the builtin [TimeoutError]: [server.py] imports it under
    the name [PlaywrightTimeoutError] and tests for both. Only subclasses
    of [Exception] are modelled. *)

Inductive exc_class :=
| Exception_
| OSError_
| TimeoutError_
| PermissionError_
| FileExistsError_
| RuntimeError_
| TypeError_
| AttributeError_
| PwError
| PwTimeoutError.

#[global] Instance exc_class_eq_dec : EqDecision exc_class.
Proof. solve_decision. Defined.

(** Direct base class. *)
Definition base_class (c : exc_class) : option exc_class :=
  match c with
  | Exception_ => None
  | OSError_ | RuntimeError_ | TypeError_ | AttributeError_ | PwError => Some Exception_
  | TimeoutError_ | PermissionError_ | FileExistsError_ => Some OSError_
  | PwTimeoutError => Some PwError
  end.

(** [issubclass(c, d)]; the hierarchy is three levels deep. *)
Definition issubclass (c d : exc_class) : bool :=
  bool_decide (c = d)
  || match base_class c with
     | Some b =>
         bool_decide (b = d)
         || match base_class b with
            | Some b' => bool_decide (b' = d)
            | None => false
            end
     | None => false
     end.

Record exn := Exn { exc_cls : exc_class; exc_msg : string }.

#[global] Instance exn_eq_dec : EqDecision exn.
Proof. solve_decision. Defined.

(** [isinstance(e, d)]. *)
Definition isinstance (e : exn) (d : exc_class) : bool := issubclass (exc_cls e) d.

(** ** Computations that read and write a state and may raise *)

Inductive result (A : Type) :=
| Ret (a : A)
| Raise (e : exn).
Arguments Ret {A} a.
Arguments Raise {A} e.

Definition M (S A : Type) : Type := S -> result A * S.

Definition ret {S A} (a : A) : M S A := fun s => (Ret a, s).

Definition raise {S A} (e : exn) : M S A := fun s => (Raise e, s).

Definition bind {S A B} (m : M S A) (k : A -> M S B) : M S B :=
  fun s => match m s with
           | (Ret a, s') => k a s'
           | (Raise e, s') => (Raise e, s')
           end.

(** [try: body / except ...: handler]: the handler sees the exception and
    the state the body left behind. A handler that does not catch the
    exception re-raises it. *)
Definition try_except {S A} (body : M S A) (handler : exn -> M S A) : M S A :=
  fun s => match body s with
           | (Ret a, s') => (Ret a, s')
           | (Raise e, s') => handler e s'
           end.

Definition get {S} : M S S := fun s => (Ret s, s).
Definition gets {S A} (f : S -> A) : M S A := fun s => (Ret (f s), s).
Definition modify {S} (f : S -> S) : M S unit := fun s => (Ret tt, f s).

(** [if c: body] with no [else]. *)
Definition when {S} (c : bool) (body : M S unit) : M S unit :=
  if c then body else ret tt.

Declare Scope py_scope.
Delimit Scope py_scope with py.
Notation "x <- m ;; k" := (bind m (fun x => k))
  (at level 100, m at next level, right associativity) : py_scope.
Notation "m ;;; k" := (bind m (fun _ => k))
  (at level 100, right associativity) : py_scope.

Local Open Scope py_scope.

(** ** Python values returned by the tools

    A [dict] keeps its keys in insertion order; assigning to a key that is
    present replaces its value in place. *)

#[local] Unset Elimination Schemes.
Inductive value :=
| VNone
| VBool (b : bool)
| VInt (n : Z)
| VStr (s : string)
| VDict (d : list (string * value)).
#[local] Set Elimination Schemes.

Definition pydict := list (string * value).

(** [d[k] = v]. *)
Fixpoint dict_set (k : string) (v : value) (d : pydict) : pydict :=
  match d with
  | [] => [(k, v)]
  | (k', v') :: d' =>
      if String.eqb k k' then (k, v) :: d' else (k', v') :: dict_set k v d'
  end.

(** [d.get(k)]. *)
Fixpoint dict_get (k : string) (d : pydict) : option value :=
  match d with
  | [] => None
  | (k', v) :: d' => if String.eqb k k' then Some v else dict_get k d'
  end.

(** [{**d, **kwargs}]. *)
Definition dict_update (d kwargs : pydict) : pydict :=
  fold_left (fun acc kv => dict_set kv.1 kv.2 acc) kwargs d.

(** ** Pure paths ([pathlib.PurePosixPath])

    A path is its anchor (empty, one slash, or two slashes when the text
    starts with exactly two) and its components; empty components and
    single dots are dropped when the text is parsed. *)

Record PurePath := MkPath { anchor : string; parts : list string }.

#[global] Instance PurePath_eq_dec : EqDecision PurePath.
Proof. solve_decision. Defined.

Module Pathlib.

Definition parse_anchor (s : string) : string :=
  if PyStr.startswith s "///" then "/"
  else if PyStr.startswith s "//" then "//"
  else if PyStr.startswith s "/" then "/"
  else "".

Definition keep_part (x : string) : bool :=
  negb (String.eqb x "" || String.eqb x ".").

(** [Path(s)]. *)
Definition Path (s : string) : PurePath :=
  MkPath (parse_anchor s) (filter (fun x => keep_part x = true) (PyStr.split_slash s)).

(** [p.name]: the last component, or the empty string. *)
Definition name (p : PurePath) : string := List.last (parts p) "".

(** [p.suffix]: the name from its last dot on, when that dot is neither
    the first nor the last character of the name. *)
Definition suffix (p : PurePath) : string :=
  let n := name p in
  match PyStr.rfind_dot n with
  | Some i =>
      if ((0 <? i) && (i <? String.length n - 1))%nat then PyStr.drop i n else ""
  | None => ""
  end.

(** [p.parent]: a path without components is its own parent. *)
Definition parent (p : PurePath) : PurePath :=
  MkPath (anchor p) (removelast (parts p)).

(** The path itself and the paths above it that have components, the
    deepest last: what [mkdir(parents=True)] may have to create. *)
Definition chain (p : PurePath) : list PurePath :=
  map (fun n => MkPath (anchor p) (firstn n (parts p))) (seq 1 (length (parts p))).

End Pathlib.

(** ** The world outside the manager

    Objects of the Playwright library are kept by identity: the identity of
    an object is its position in the list of its kind, and a new object is
    appended. The file system keeps the directories and the files that
    exist, by pure path; the directory a path without components names (the
    working directory, or the root) always exists. [trace] records every
    call that leaves the process, in order. *)

Record driver_obj := MkDriver { drv_running : bool }.

Record browser_obj := MkBrowser {
  br_connected : bool;
  br_driver : nat;
  br_headless : bool }.

Record context_obj := MkContext {
  ctx_browser : nat;
  ctx_viewport : option (Z * Z) }.

Record page_obj := MkPage {
  pg_closed : bool;
  pg_context : nat;
  pg_viewport : option (Z * Z);
  pg_url : string;
  pg_title : string }.

Inductive event :=
| EvStart
| EvLaunch (d : nat) (headless : bool) (timeout : Z)
| EvNewContext (b : nat) (width height : Z)
| EvNewPage (c : nat)
| EvPageClose (p : nat)
| EvBrowserClose (b : nat)
| EvStop (d : nat)
| EvGoto (p : nat) (url wait_until : string) (timeout : Z)
| EvTitle (p : nat)
| EvScreenshot (p : nat) (path : string) (full_page : bool) (timeout : Z)
| EvMkdir (dir : PurePath)
| EvStat (file : PurePath).

Record World := MkWorld {
  drivers : list driver_obj;
  browsers : list browser_obj;
  contexts : list context_obj;
  pages : list page_obj;
  dirs : list PurePath;
  files : list (PurePath * Z);
  trace : list event }.

(** ** [class BrowserManager]

    The class attributes: the three references and the configuration read
    from the environment when the module is imported. There is one
    instance ([__new__] returns the same object every time), so the
    attributes are the whole state of the manager. *)

Record BrowserManager := MkManager {
  _playwright : option nat;
  _browser : option nat;
  _page : option nat;
  _headless : bool;
  _browser_timeout : Z;
  _viewport_width : Z;
  _viewport_height : Z }.

Record State := MkState { mgr : BrowserManager; world : World }.

Definition set_playwright (v : option nat) : M State unit :=
  modify (fun s =>
    let m := mgr s in
    MkState (MkManager v (_browser m) (_page m) (_headless m)
               (_browser_timeout m) (_viewport_width m) (_viewport_height m))
            (world s)).

Definition set_browser (v : option nat) : M State unit :=
  modify (fun s =>
    let m := mgr s in
    MkState (MkManager (_playwright m) v (_page m) (_headless m)
               (_browser_timeout m) (_viewport_width m) (_viewport_height m))
            (world s)).

Definition set_page (v : option nat) : M State unit :=
  modify (fun s =>
    let m := mgr s in
    MkState (MkManager (_playwright m) (_browser m) v (_headless m)
               (_browser_timeout m) (_viewport_width m) (_viewport_height m))
            (world s)).

Definition with_world (f : World -> World) : M State unit :=
  modify (fun s => MkState (mgr s) (f (world s))).

Definition log (e : event) : M State unit :=
  with_world (fun w =>
    MkWorld (drivers w) (browsers w) (contexts w) (pages w) (dirs w) (files w)
            (trace w ++ [e])).

Definition set_drivers (l : list driver_obj) (w : World) : World :=
  MkWorld l (browsers w) (contexts w) (pages w) (dirs w) (files w) (trace w).

Definition set_browsers (l : list browser_obj) (w : World) : World :=
  MkWorld (drivers w) l (contexts w) (pages w) (dirs w) (files w) (trace w).

Definition set_contexts (l : list context_obj) (w : World) : World :=
  MkWorld (drivers w) (browsers w) l (pages w) (dirs w) (files w) (trace w).

Definition set_pages (l : list page_obj) (w : World) : World :=
  MkWorld (drivers w) (browsers w) (contexts w) l (dirs w) (files w) (trace w).

Definition set_dirs (l : list PurePath) (w : World) : World :=
  MkWorld (drivers w) (browsers w) (contexts w) (pages w) l (files w) (trace w).

Definition set_files (l : list (PurePath * Z)) (w : World) : World :=
  MkWorld (drivers w) (browsers w) (contexts w) (pages w) (dirs w) l (trace w).

(** ** The Playwright calls the manager makes

    Each awaited call is logged, then fails with the exception its
    environment argument carries, if any, and otherwise takes effect. A
    call that raises has no effect on the store. Two failures do not
    depend on the environment: a driver that was stopped has closed its
    connection, so a launch through it fails, and a browser that is
    disconnected opens neither contexts nor pages. Both raise the library's
    [Error]. *)

Definition closed_msg : string :=
  "Target page, context or browser has been closed".

Definition driver_running (w : World) (d : nat) : bool :=
  match drivers w !! d with
  | Some o => drv_running o
  | None => false
  end.

(** [browser.is_connected()]: reads a flag, no call leaves the process. *)
Definition is_connected (w : World) (b : nat) : bool :=
  match browsers w !! b with
  | Some o => br_connected o
  | None => false
  end.

(** [page.is_closed()]: reads a flag, no call leaves the process. *)
Definition is_closed (w : World) (p : nat) : bool :=
  match pages w !! p with
  | Some o => pg_closed o
  | None => true
  end.

(** [page.viewport_size]: [None] for a page of a context opened without a
    viewport. *)
Definition viewport_size (w : World) (p : nat) : option (Z * Z) :=
  match pages w !! p with
  | Some o => pg_viewport o
  | None => None
  end.

(** [page.url]. *)
Definition page_url (w : World) (p : nat) : string :=
  match pages w !! p with
  | Some o => pg_url o
  | None => ""
  end.

Definition context_connected (w : World) (c : nat) : bool :=
  match contexts w !! c with
  | Some o => is_connected w (ctx_browser o)
  | None => false
  end.

(** The pages of browser [b] are closed when the browser is. *)
Definition close_pages_of (w : World) (b : nat) (l : list page_obj) : list page_obj :=
  map (fun o =>
         match contexts w !! pg_context o with
         | Some c =>
             if Nat.eqb (ctx_browser c) b
             then MkPage true (pg_context o) (pg_viewport o) (pg_url o) (pg_title o)
             else o
         | None => o
         end) l.

Definition failing {A} (fault : option exn) (k : M State A) : M State A :=
  match fault with
  | Some e => raise e
  | None => k
  end.

(** [await async_playwright().start()]. *)
Definition pw_start (fault : option exn) : M State nat :=
  log EvStart ;;;
  failing fault (
    w <- gets world ;;
    with_world (set_drivers (drivers w ++ [MkDriver true])) ;;;
    ret (length (drivers w))).

(** [await playwright.chromium.launch(headless=..., timeout=...)]. *)
Definition pw_launch (fault : option exn) (d : nat) (headless : bool) (timeout : Z)
  : M State nat :=
  log (EvLaunch d headless timeout) ;;;
  w <- gets world ;;
  if driver_running w d then
    failing fault (
      with_world (set_browsers (browsers w ++ [MkBrowser true d headless])) ;;;
      ret (length (browsers w)))
  else raise (Exn PwError closed_msg).

(** [await browser.new_context(viewport={'width': ..., 'height': ...})]. *)
Definition pw_new_context (fault : option exn) (b : nat) (width height : Z)
  : M State nat :=
  log (EvNewContext b width height) ;;;
  w <- gets world ;;
  if is_connected w b then
    failing fault (
      with_world (set_contexts (contexts w ++ [MkContext b (Some (width, height))])) ;;;
      ret (length (contexts w)))
  else raise (Exn PwError closed_msg).

(** [await context.new_page()]: a blank page with the viewport of its
    context. *)
Definition pw_new_page (fault : option exn) (c : nat) : M State nat :=
  log (EvNewPage c) ;;;
  w <- gets world ;;
  if context_connected w c then
    failing fault (
      let vp := match contexts w !! c with
                | Some o => ctx_viewport o
                | None => None
                end in
      with_world (set_pages (pages w ++ [MkPage false c vp "about:blank" ""])) ;;;
      ret (length (pages w)))
  else raise (Exn PwError closed_msg).

(** [await page.close()]. *)
Definition pw_page_close (fault : option exn) (p : nat) : M State unit :=
  log (EvPageClose p) ;;;
  failing fault (
    with_world (fun w =>
      set_pages (alter (fun o => MkPage true (pg_context o) (pg_viewport o)
                                   (pg_url o) (pg_title o)) p (pages w)) w)).

(** [await browser.close()]: disconnects the browser and closes its
    pages. *)
Definition pw_browser_close (fault : option exn) (b : nat) : M State unit :=
  log (EvBrowserClose b) ;;;
  failing fault (
    with_world (fun w =>
      set_browsers (alter (fun o => MkBrowser false (br_driver o) (br_headless o))
                      b (browsers w))
        (set_pages (close_pages_of w b (pages w)) w))).

(** [await playwright.stop()]: the driver terminates. *)
Definition pw_stop (fault : option exn) (d : nat) : M State unit :=
  log (EvStop d) ;;;
  failing fault (
    with_world (fun w =>
      set_drivers (alter (fun _ => MkDriver false) d (drivers w)) w)).

(** What the library calls of one initialization raise, if anything. *)
Record InitEnv := MkInitEnv {
  on_start : option exn;
  on_launch : option exn;
  on_new_context : option exn;
  on_new_page : option exn }.

(** What the library calls of one teardown raise, if anything. *)
Record CleanupEnv := MkCleanupEnv {
  on_page_close : option exn;
  on_browser_close : option exn;
  on_stop : option exn }.

Definition init_ok : InitEnv := MkInitEnv None None None None.
Definition cleanup_ok : CleanupEnv := MkCleanupEnv None None None.

(** ** The methods of [BrowserManager] *)

(** Attribute access on [None]. *)
Definition none_attribute (attr : string) : exn :=
  Exn AttributeError_ ("'NoneType' object has no attribute '" ++ attr ++ "'").

(** The [except] clauses of [ensure_browser], tried in order. *)
Definition classify_init_error (timeout : Z) (e : exn) : exn :=
  if isinstance e TimeoutError_ then
    Exn TimeoutError_
      ("Browser launch timed out after " ++ PyStr.of_int timeout ++ "ms. "
       ++ "Try increasing BROWSER_TIMEOUT in .env")
  else if isinstance e PwError then
    Exn PwError
      ("Failed to launch browser: " ++ exc_msg e ++ ". "
       ++ "Ensure Playwright browsers are installed with 'playwright install chromium'")
  else
    Exn RuntimeError_
      ("Unexpected error during browser initialization: " ++ exc_msg e).

(** The condition [self._page is None or self._page.is_closed()]. *)
Definition needs_init (s : State) : bool :=
  match _page (mgr s) with
  | None => true
  | Some p => is_closed (world s) p
  end.

(** The body of the [try] block of [ensure_browser]. *)
Definition initialize (env : InitEnv) : M State unit :=
  m <- gets mgr ;;
  when (bool_decide (_playwright m = None))
    (d <- pw_start (on_start env) ;; set_playwright (Some d)) ;;;
  m <- gets mgr ;;
  b <- match _playwright m with
       | Some d => pw_launch (on_launch env) d (_headless m) (_browser_timeout m)
       | None => raise (none_attribute "chromium")
       end ;;
  set_browser (Some b) ;;;
  m <- gets mgr ;;
  context <- match _browser m with
             | Some b => pw_new_context (on_new_context env) b
                           (_viewport_width m) (_viewport_height m)
             | None => raise (none_attribute "new_context")
             end ;;
  p <- pw_new_page (on_new_page env) context ;;
  set_page (Some p).

(** [async def ensure_browser(self) -> Page]. The value returned is the
    attribute [_page] as it is at the end. *)
Definition ensure_browser (env : InitEnv) : M State (option nat) :=
  s <- get ;;
  when (needs_init s)
    (try_except (initialize env)
       (fun e =>
          m <- gets mgr ;;
          raise (classify_init_error (_browser_timeout m) e))) ;;;
  gets (fun s => _page (mgr s)).

(** [async def get_page(self) -> Page]. *)
Definition get_page (env : InitEnv) : M State (option nat) := ensure_browser env.

(** [except Exception: pass]. *)
Definition swallow (body : M State unit) : M State unit :=
  try_except body (fun _ => ret tt).

(** [async def _cleanup_browser(self) -> None]. A page, a browser and a
    driver object are all true in a condition. *)
Definition _cleanup_browser (env : CleanupEnv) : M State unit :=
  swallow (
    s <- get ;;
    match _page (mgr s) with
    | Some p => when (negb (is_closed (world s) p)) (pw_page_close (on_page_close env) p)
    | None => ret tt
    end) ;;;
  swallow (
    s <- get ;;
    match _browser (mgr s) with
    | Some b => when (is_connected (world s) b) (pw_browser_close (on_browser_close env) b)
    | None => ret tt
    end) ;;;
  swallow (
    s <- get ;;
    match _playwright (mgr s) with
    | Some d => pw_stop (on_stop env) d
    | None => ret tt
    end).

(** [async def restart_browser(self) -> Page]. *)
Definition restart_browser (cenv : CleanupEnv) (env : InitEnv) : M State (option nat) :=
  _cleanup_browser cenv ;;;
  set_browser None ;;;
  set_page None ;;;
  ensure_browser env.

(** [async def cleanup(self) -> None]. *)
Definition cleanup (env : CleanupEnv) : M State unit :=
  _cleanup_browser env ;;;
  set_playwright None ;;;
  set_browser None ;;;
  set_page None.

(** [def is_initialized(self) -> bool]. *)
Definition is_initialized (s : State) : bool :=
  match _browser (mgr s) with
  | None => false
  | Some b =>
      is_connected (world s) b
      && match _page (mgr s) with
         | None => false
         | Some p => negb (is_closed (world s) p)
         end
  end.

(** [async def get_current_url(self) -> Optional[str]]. *)
Definition get_current_url : M State (option string) :=
  s <- get ;;
  match _page (mgr s) with
  | Some p => if is_initialized s then ret (Some (page_url (world s) p)) else ret None
  | None => ret None
  end.

(** [async def get_viewport_size(self) -> dict]. Subscripting the [None]
    that [viewport_size] may be raises [TypeError]. *)
Definition get_viewport_size : M State pydict :=
  s <- get ;;
  let m := mgr s in
  let default :=
    ret [("width", VInt (_viewport_width m)); ("height", VInt (_viewport_height m))] in
  match _page m with
  | Some p =>
      if is_initialized s then
        match viewport_size (world s) p with
        | Some (w, h) => ret [("width", VInt w); ("height", VInt h)]
        | None => raise (Exn TypeError_ "'NoneType' object is not subscriptable")
        end
      else default
  | None => default
  end.

(** ** States

    The manager as the class body leaves it, with the configuration
    defaults of the source, and a world in which nothing exists yet. *)

Definition empty_world : World := MkWorld [] [] [] [] [] [] [].

Definition default_manager : BrowserManager :=
  MkManager None None None true 30000 1920 1080.

Definition initial : State := MkState default_manager empty_world.

(** The handle state described as absent: no browser and no page. *)
Definition handle_absent (m : BrowserManager) : Prop :=
  _browser m = None /\ _page m = None.

(** The state after [cleanup]: all three references are [None]. *)
Definition absent (m : BrowserManager) : Prop :=
  _playwright m = None /\ _browser m = None /\ _page m = None.

(** The page dies out of band (a crashed tab, or a caller closing it). *)
Definition page_dies (p : nat) (s : State) : State :=
  MkState (mgr s)
    (set_pages (alter (fun o => MkPage true (pg_context o) (pg_viewport o)
                                  (pg_url o) (pg_title o)) p (pages (world s)))
       (world s)).

(** The browser dies out of band (its process crashes or is killed): as
    when it is closed, its pages are closed and it is disconnected.
    Playwright reports the pages of a browser closed before it reports the
    browser disconnected. *)
Definition browser_dies (b : nat) (s : State) : State :=
  MkState (mgr s)
    (set_browsers (alter (fun o => MkBrowser false (br_driver o) (br_headless o))
                     b (browsers (world s)))
       (set_pages (close_pages_of (world s) b (pages (world s))) (world s))).

(** The browsers that are connected. *)
Definition live_browsers (w : World) : list nat :=
  filter (fun b => is_connected w b = true) (seq 0 (length (browsers w))).

(** ** [server.py]: configuration and error envelopes *)

(** The module constants read from the environment at import. *)
Record Config := MkConfig {
  NAVIGATION_TIMEOUT : Z;
  ELEMENT_TIMEOUT : Z;
  SCREENSHOT_TIMEOUT : Z }.

Definition default_config : Config := MkConfig 30000 10000 5000.

(** [def parse_playwright_error(error) -> tuple[str, str]]. *)
Definition parse_playwright_error (error : exn) : string * string :=
  let error_msg := PyStr.lower (exc_msg error) in
  if PyStr.contains error_msg "net::err_name_not_resolved"
     || PyStr.contains error_msg "dns" then
    ("NetworkError", "DNS lookup failed. Check URL spelling and internet connection")
  else if PyStr.contains error_msg "net::err_connection_refused" then
    ("NetworkError", "Connection refused. The server may be down or unreachable")
  else if PyStr.contains error_msg "ssl" || PyStr.contains error_msg "certificate" then
    ("NetworkError", "SSL certificate error. The site may have security issues")
  else if PyStr.contains error_msg "timeout"
          || (isinstance error TimeoutError_ || isinstance error PwTimeoutError) then
    ("TimeoutError",
     "Operation timed out. Try increasing timeout or check if site is accessible")
  else if PyStr.contains error_msg "element is not visible" then
    ("ElementNotFound",
     "Element exists but not visible. Try scrolling or waiting for it to appear")
  else if PyStr.contains error_msg "unable to find element"
          || PyStr.contains error_msg "no element found" then
    ("ElementNotFound", "Element not found with given selector. Check selector syntax")
  else if PyStr.contains error_msg "element is disabled"
          || PyStr.contains error_msg "readonly" then
    ("InvalidElementState", "Element is disabled or read-only and cannot be modified")
  else
    ("UnknownError", "An unexpected error occurred. Check the error message for details").

(** [def create_error_response(error_type, message, suggestion, **kwargs)]. *)
Definition create_error_response (error_type message suggestion : string)
    (kwargs : pydict) : pydict :=
  dict_update
    [("success", VBool false);
     ("error", VStr message);
     ("error_type", VStr error_type);
     ("suggestion", VStr suggestion)]
    kwargs.

(** ** The calls the tools make on a page and on the file system *)

(** [await page.goto(url, wait_until=..., timeout=...)]: on success the
    page shows the address and title the site answers with. *)
Definition pw_goto (fault : option exn) (landed title : string)
    (p : nat) (url wait_until : string) (timeout : Z) : M State unit :=
  log (EvGoto p url wait_until timeout) ;;;
  w <- gets world ;;
  if is_closed w p then raise (Exn PwError closed_msg)
  else
    failing fault (
      with_world (fun w =>
        set_pages (alter (fun o => MkPage (pg_closed o) (pg_context o) (pg_viewport o)
                                     landed title) p (pages w)) w)).

(** [await page.title()]. *)
Definition pw_title (fault : option exn) (p : nat) : M State string :=
  log (EvTitle p) ;;;
  w <- gets world ;;
  if is_closed w p then raise (Exn PwError closed_msg)
  else
    failing fault (
      ret (match pages w !! p with
           | Some o => pg_title o
           | None => ""
           end)).

(** Whether a directory exists: the one a path without components names
    always does. *)
Definition is_dir (w : World) (p : PurePath) : bool :=
  bool_decide (parts p = []) || bool_decide (p ∈ dirs w).

Definition is_file (w : World) (p : PurePath) : bool :=
  bool_decide (p ∈ (files w).*1).

(** [p.mkdir(parents=True, exist_ok=True)]: creates the directory and the
    missing ones above it; a regular file in the way is an error. *)
Definition fs_mkdir (fault : option exn) (p : PurePath) : M State unit :=
  log (EvMkdir p) ;;;
  failing fault (
    w <- gets world ;;
    if existsb (is_file w) (Pathlib.chain p) then
      raise (Exn FileExistsError_ "[Errno 17] File exists")
    else
      with_world (set_dirs
        (dirs w ++ filter (fun q => is_dir w q = false) (Pathlib.chain p)))).

(** [await page.screenshot(path=..., full_page=..., timeout=...)]: on
    success the image file exists with the size the browser produced. *)
Definition pw_screenshot (fault : option exn) (size : Z)
    (p : nat) (path : string) (full_page : bool) (timeout : Z) : M State unit :=
  log (EvScreenshot p path full_page timeout) ;;;
  w <- gets world ;;
  if is_closed w p then raise (Exn PwError closed_msg)
  else
    failing fault (
      with_world (fun w =>
        set_files ((Pathlib.Path path, size)
                   :: filter (fun f => f.1 ≠ Pathlib.Path path) (files w)) w)).

(** [p.stat().st_size]. *)
Definition fs_stat_size (fault : option exn) (p : PurePath) : M State Z :=
  log (EvStat p) ;;;
  failing fault (
    w <- gets world ;;
    match list_find (fun f => f.1 = p) (files w) with
    | Some (_, (_, size)) => ret size
    | None => raise (Exn OSError_ "[Errno 2] No such file or directory")
    end).

(** What the calls of one [navigate] raise or answer. *)
Record NavEnv := MkNavEnv {
  nav_init : InitEnv;
  on_goto : option exn;
  nav_landed : string;
  nav_title : string;
  on_title : option exn }.

(** What the calls of one [screenshot] raise or answer; [shot_resolved] is
    the text of [path_obj.resolve()]. *)
Record ShotEnv := MkShotEnv {
  shot_init : InitEnv;
  on_mkdir : option exn;
  on_screenshot : option exn;
  shot_size : Z;
  shot_resolved : string;
  on_stat : option exn }.

(** ** The tools *)

Section Tools.

Variable cfg : Config.

(** [async def navigate(url, wait_until="load") -> dict]. *)
Definition navigate (env : NavEnv) (url wait_until : string) : M State pydict :=
  try_except (
    if negb (PyStr.startswith url "http://" || PyStr.startswith url "https://") then
      ret (create_error_response "ValidationError"
             "URL must start with http:// or https://"
             "Add http:// or https:// to the URL"
             [("url", VStr url)])
    else if negb (bool_decide (wait_until ∈ ["load"; "domcontentloaded"; "networkidle"])) then
      ret (create_error_response "ValidationError"
             ("Invalid wait_until value: " ++ wait_until)
             "Use 'load', 'domcontentloaded', or 'networkidle'"
             [("url", VStr url)])
    else
      page <- get_page (nav_init env) ;;
      match page with
      | None => raise (none_attribute "goto")
      | Some p =>
          pw_goto (on_goto env) (nav_landed env) (nav_title env)
            p url wait_until (NAVIGATION_TIMEOUT cfg) ;;;
          w <- gets world ;;
          title <- pw_title (on_title env) p ;;
          ret [("success", VBool true);
               ("url", VStr (page_url w p));
               ("title", VStr title)]
      end)
    (fun e =>
       if isinstance e PwTimeoutError then
         ret (create_error_response "TimeoutError"
                ("Navigation timed out after "
                 ++ PyStr.of_int (NAVIGATION_TIMEOUT cfg) ++ "ms")
                "Increase NAVIGATION_TIMEOUT or check if site is accessible"
                [("url", VStr url)])
       else
         let '(error_type, suggestion) := parse_playwright_error e in
         ret (create_error_response error_type (exc_msg e) suggestion
                [("url", VStr url)])).

Definition valid_extensions : list string := [".png"; ".jpg"; ".jpeg"].

(** The two validations of [screenshot]: the path is not blank and its
    suffix, in lower case, is one of [valid_extensions]. *)
Definition path_blank (path : string) : bool :=
  negb (PyStr.truthy path) || negb (PyStr.truthy (PyStr.strip path)).

Definition extension_ok (path : string) : bool :=
  bool_decide (PyStr.lower (Pathlib.suffix (Pathlib.Path path)) ∈ valid_extensions).

(** [async def screenshot(path, full_page=False) -> dict]. *)
Definition screenshot (env : ShotEnv) (path : string) (full_page : bool)
  : M State pydict :=
  try_except (
    if path_blank path then
      ret (create_error_response "ValidationError"
             "Path cannot be empty"
             "Provide a valid file path"
             [("path", VStr path)])
    else
      let path_obj := Pathlib.Path path in
      if negb (extension_ok path) then
        ret (create_error_response "ValidationError"
               ("Invalid file extension: " ++ Pathlib.suffix path_obj)
               ("Use one of: " ++ PyStr.join ", " valid_extensions)
               [("path", VStr path)])
      else
        fs_mkdir (on_mkdir env) (Pathlib.parent path_obj) ;;;
        page <- get_page (shot_init env) ;;
        match page with
        | None => raise (none_attribute "screenshot")
        | Some p =>
            pw_screenshot (on_screenshot env) (shot_size env)
              p path full_page (SCREENSHOT_TIMEOUT cfg) ;;;
            file_size <- fs_stat_size (on_stat env) path_obj ;;
            viewport <- get_viewport_size ;;
            ret [("success", VBool true);
                 ("path", VStr (shot_resolved env));
                 ("file_size", VInt file_size);
                 ("full_page", VBool full_page);
                 ("viewport", VDict viewport)]
        end)
    (fun e =>
       if isinstance e PwTimeoutError then
         ret (create_error_response "TimeoutError"
                ("Screenshot timed out after "
                 ++ PyStr.of_int (SCREENSHOT_TIMEOUT cfg) ++ "ms")
                "Try increasing SCREENSHOT_TIMEOUT"
                [("path", VStr path)])
       else if isinstance e PermissionError_ then
         ret (create_error_response "FileSystemError"
                ("Permission denied: " ++ exc_msg e)
                "Check file/directory write permissions"
                [("path", VStr path)])
       else
         let '(error_type, suggestion) := parse_playwright_error e in
         ret (create_error_response error_type (exc_msg e) suggestion
                [("path", VStr path)])).

End Tools.

(** ** Runs of the system

    What can happen to the manager: its three locked operations, the two
    tools, and the two ways a handle dies without the manager doing
    anything. *)

Inductive action :=
| Acquire (env : InitEnv)
| Restart (cenv : CleanupEnv) (env : InitEnv)
| Cleanup (cenv : CleanupEnv)
| Navigate (env : NavEnv) (url wait_until : string)
| Screenshot (env : ShotEnv) (path : string) (full_page : bool)
| PageDies (p : nat)
| BrowserDies (b : nat).

Definition step (cfg : Config) (a : action) (s : State) : State :=
  match a with
  | Acquire env => (ensure_browser env s).2
  | Restart cenv env => (restart_browser cenv env s).2
  | Cleanup cenv => (cleanup cenv s).2
  | Navigate env url wait_until => (navigate cfg env url wait_until s).2
  | Screenshot env path full_page => (screenshot cfg env path full_page s).2
  | PageDies p => page_dies p s
  | BrowserDies b => browser_dies b s
  end.

Definition run (cfg : Config) (l : list action) (s : State) : State :=
  fold_left (fun s a => step cfg a s) l s.

(** A manager that has never acquired anything, for some configuration. *)
Definition cold (headless : bool) (timeout width height : Z) : State :=
  MkState (MkManager None None None headless timeout width height) empty_world.

(** The states the process can be in. *)
Definition reachable (s : State) : Prop :=
  exists cfg headless timeout width height l,
    s = run cfg l (cold headless timeout width height).

(** The library calls a teardown makes from a state: each is decided by
    the references and flags alone, whatever the earlier ones raised. *)
Definition teardown_calls (s : State) : list event :=
  match _page (mgr s) with
  | Some p => if is_closed (world s) p then [] else [EvPageClose p]
  | None => []
  end
  ++ match _browser (mgr s) with
     | Some b => if is_connected (world s) b then [EvBrowserClose b] else []
     | None => []
     end
  ++ match _playwright (mgr s) with
     | Some d => [EvStop d]
     | None => []
     end.

(** Every context was opened with a viewport, and so every page has one. *)
Definition viewports_set (s : State) : Prop :=
  Forall (fun c => is_Some (ctx_viewport c)) (contexts (world s))
  /\ Forall (fun o => is_Some (pg_viewport o)) (pages (world s)).

(** A computation keeps a property of the state, however it ends. *)
Definition preserves {A} (P : State -> Prop) (m : M State A) : Prop :=
  forall s, P s -> P (m s).2.

(** A property that every call on the browser side and every assignment to
    an attribute keeps. *)
Class BrowserStable (P : State -> Prop) : Prop := {
  stable_set_playwright v : preserves P (set_playwright v);
  stable_set_browser v : preserves P (set_browser v);
  stable_set_page v : preserves P (set_page v);
  stable_start f : preserves P (pw_start f);
  stable_launch f d h t : preserves P (pw_launch f d h t);
  stable_new_context f b width height : preserves P (pw_new_context f b width height);
  stable_new_page f c : preserves P (pw_new_page f c);
  stable_page_close f p : preserves P (pw_page_close f p);
  stable_browser_close f b : preserves P (pw_browser_close f b);
  stable_stop f d : preserves P (pw_stop f d);
  stable_goto f landed title p url wait_until t :
    preserves P (pw_goto f landed title p url wait_until t);
  stable_title f p : preserves P (pw_title f p);
  stable_screenshot f size p path full_page t :
    preserves P (pw_screenshot f size p path full_page t);
  stable_stat f p : preserves P (fs_stat_size f p) }.

(** The last call made, as the trace has it. *)
Definition last_call (s : State) : option event := last (trace (world s)).

(** The directories are [l] and the calls so far start with [pre]. *)
Definition dirs_and_calls (l : list PurePath) (pre : list event) (s : State) : Prop :=
  dirs (world s) = l /\ exists rest, trace (world s) = (pre ++ rest)%list.

(** Whether [mkdir] of the parent of a path raises in a state. *)
Definition mkdir_raises (env : ShotEnv) (s : State) (p : PurePath) : bool :=
  bool_decide (on_mkdir env <> None) || existsb (is_file (world s)) (Pathlib.chain p).

(** The error envelope of a validation failure. *)
Definition is_validation_error (d : pydict) : Prop :=
  dict_get "success" d = Some (VBool false)
  /\ dict_get "error_type" d = Some (VStr "ValidationError")
  /\ exists text, dict_get "suggestion" d = Some (VStr text).

(** *** Concrete environments and states used below *)

Definition boom : exn := Exn PwError "Protocol error".

(** Opening the context fails after the engine was launched. *)
Definition context_fails : InitEnv := MkInitEnv None None (Some boom) None.

(** The launch exceeds its budget: Playwright raises its own
    [TimeoutError]. *)
Definition launch_times_out : InitEnv :=
  MkInitEnv None (Some (Exn PwTimeoutError "Timeout 30000ms exceeded.")) None None.

(** The state after one successful acquisition on a cold manager. *)
Definition acquired : State := (ensure_browser init_ok initial).2.

(** ** The remaining tools of [server.py]

    [click_element], [fill_input] and [extract_text] work on a locator of
    the page. What happens inside the document is not modelled: each
    locator call is recorded, fails on a closed page, and otherwise raises
    or answers what its environment says. These calls have a record of
    their own, next to the state of the manager and its world. *)

Inductive elem_event :=
| EvClick (p : nat) (selector : string) (timeout : Z)
| EvTextContent (p : nat) (selector : string)
| EvClear (p : nat) (selector : string) (timeout : Z)
| EvFill (p : nat) (selector text : string) (timeout : Z)
| EvWaitFor (p : nat) (selector : string) (timeout : Z).

Record ToolState := MkToolState { base : State; calls : list elem_event }.

(** A computation of the manager, run inside a tool. *)
Definition lift_base {A} (m : M State A) : M ToolState A :=
  fun t => let '(r, s') := m (base t) in (r, MkToolState s' (calls t)).

(** One awaited call on the locator [page.locator(selector)]. *)
Definition elem_call {A} (e : elem_event) (p : nat) (fault : option exn) (answer : A)
  : M ToolState A :=
  modify (fun t => MkToolState (base t) (calls t ++ [e])) ;;;
  t <- get ;;
  if is_closed (world (base t)) p then raise (Exn PwError closed_msg)
  else match fault with
       | Some x => raise x
       | None => ret answer
       end.

(** What the calls of one element tool raise or answer; [text_answer] is
    what [text_content()] returns, [None] for a node without text. *)
Record ElemEnv := MkElemEnv {
  el_init : InitEnv;
  on_click : option exn;
  on_clear : option exn;
  on_fill : option exn;
  on_wait_for : option exn;
  on_text_content : option exn;
  text_answer : option string }.

(** What the calls of one [get_page_info] raise. *)
Record InfoEnv := MkInfoEnv {
  info_init : InitEnv;
  info_on_title : option exn }.

(** [len(s)]. *)
Definition py_len (s : string) : Z := Z.of_nat (String.length s).

(** [not selector or not selector.strip()]. *)
Definition selector_blank (selector : string) : bool :=
  negb (PyStr.truthy selector) || negb (PyStr.truthy (PyStr.strip selector)).

(** [t.strip() if t else ""], for the optional text of a node. *)
Definition strip_or_empty (t : option string) : string :=
  match t with
  | Some x => if PyStr.truthy x then PyStr.strip x else ""
  | None => ""
  end.

(** [len(t.strip()) if t else 0]. *)
Definition stripped_len (t : option string) : Z :=
  match t with
  | Some x => if PyStr.truthy x then py_len (PyStr.strip x) else 0
  | None => 0
  end.

(** The envelope every element tool answers a blank selector with. *)
Definition selector_error (selector : string) : pydict :=
  create_error_response "ValidationError"
    "Selector cannot be empty"
    "Provide a valid CSS selector"
    [("selector", VStr selector)].

Section ElementTools.

Variable cfg : Config.

(** [async def click_element(selector) -> dict]. *)
Definition click_element (env : ElemEnv) (selector : string) : M ToolState pydict :=
  try_except (
    if selector_blank selector then ret (selector_error selector)
    else
      page <- lift_base (get_page (el_init env)) ;;
      match page with
      | None => raise (none_attribute "locator")
      | Some p =>
          elem_call (EvClick p selector (ELEMENT_TIMEOUT cfg)) p (on_click env) tt ;;;
          element_text <- elem_call (EvTextContent p selector) p
                            (on_text_content env) (text_answer env) ;;
          ret [("success", VBool true);
               ("selector", VStr selector);
               ("element_text", VStr (strip_or_empty element_text))]
      end)
    (fun e =>
       if isinstance e PwTimeoutError then
         ret (create_error_response "ElementNotFound"
                ("Element '" ++ selector ++ "' not found or not clickable within "
                 ++ PyStr.of_int (ELEMENT_TIMEOUT cfg) ++ "ms")
                "Check if selector is correct and element is visible"
                [("selector", VStr selector)])
       else
         let '(error_type, suggestion) := parse_playwright_error e in
         ret (create_error_response error_type (exc_msg e) suggestion
                [("selector", VStr selector)])).

(** [async def fill_input(selector, text) -> dict]. *)
Definition fill_input (env : ElemEnv) (selector text : string) : M ToolState pydict :=
  try_except (
    if selector_blank selector then ret (selector_error selector)
    else
      page <- lift_base (get_page (el_init env)) ;;
      match page with
      | None => raise (none_attribute "locator")
      | Some p =>
          elem_call (EvClear p selector (ELEMENT_TIMEOUT cfg)) p (on_clear env) tt ;;;
          elem_call (EvFill p selector text (ELEMENT_TIMEOUT cfg)) p (on_fill env) tt ;;;
          ret [("success", VBool true);
               ("selector", VStr selector);
               ("text_length", VInt (py_len text))]
      end)
    (fun e =>
       if isinstance e PwTimeoutError then
         ret (create_error_response "ElementNotFound"
                ("Input element '" ++ selector ++ "' not found within "
                 ++ PyStr.of_int (ELEMENT_TIMEOUT cfg) ++ "ms")
                "Check if selector is correct and element is visible"
                [("selector", VStr selector)])
       else
         let '(error_type, suggestion) := parse_playwright_error e in
         ret (create_error_response error_type (exc_msg e) suggestion
                [("selector", VStr selector)])).

(** [async def extract_text(selector) -> dict]. *)
Definition extract_text (env : ElemEnv) (selector : string) : M ToolState pydict :=
  try_except (
    if selector_blank selector then ret (selector_error selector)
    else
      page <- lift_base (get_page (el_init env)) ;;
      match page with
      | None => raise (none_attribute "locator")
      | Some p =>
          elem_call (EvWaitFor p selector (ELEMENT_TIMEOUT cfg)) p (on_wait_for env) tt ;;;
          text <- elem_call (EvTextContent p selector) p
                    (on_text_content env) (text_answer env) ;;
          ret [("success", VBool true);
               ("selector", VStr selector);
               ("text", VStr (strip_or_empty text));
               ("text_length", VInt (stripped_len text))]
      end)
    (fun e =>
       if isinstance e PwTimeoutError then
         ret (create_error_response "ElementNotFound"
                ("Element '" ++ selector ++ "' not found within "
                 ++ PyStr.of_int (ELEMENT_TIMEOUT cfg) ++ "ms")
                "Check if selector is correct and element exists"
                [("selector", VStr selector)])
       else
         let '(error_type, suggestion) := parse_playwright_error e in
         ret (create_error_response error_type (exc_msg e) suggestion
                [("selector", VStr selector)])).

End ElementTools.

(** [async def get_page_info() -> dict]. *)
Definition get_page_info (env : InfoEnv) : M State pydict :=
  try_except (
    page <- get_page (info_init env) ;;
    match page with
    | None => raise (none_attribute "url")
    | Some p =>
        w <- gets world ;;
        let url := page_url w p in
        title <- pw_title (info_on_title env) p ;;
        viewport <- get_viewport_size ;;
        ret [("success", VBool true);
             ("url", VStr url);
             ("title", VStr title);
             ("viewport", VDict viewport)]
    end)
    (fun e =>
       let '(error_type, suggestion) := parse_playwright_error e in
       ret (create_error_response error_type (exc_msg e) suggestion [])).

(** ** Vocabulary of the further properties *)

(** The error types a tool can answer with. *)
Definition error_types : list string :=
  ["ValidationError"; "NetworkError"; "TimeoutError"; "ElementNotFound";
   "InvalidElementState"; "FileSystemError"; "UnknownError"].

(** The five error types [parse_playwright_error] chooses from. *)
Definition parsed_types : list string :=
  ["NetworkError"; "TimeoutError"; "ElementNotFound"; "InvalidElementState";
   "UnknownError"].

(** A failure envelope: [success] is false, the message, type and
    suggestion are there, the type is one of [types], and the field
    [key] holds the caller's input. *)
Definition failure_envelope (types : list string) (key input : string) (d : pydict)
  : Prop :=
  dict_get "success" d = Some (VBool false)
  /\ (exists message, dict_get "error" d = Some (VStr message))
  /\ (exists error_type,
        dict_get "error_type" d = Some (VStr error_type) /\ error_type ∈ types)
  /\ (exists suggestion, dict_get "suggestion" d = Some (VStr suggestion))
  /\ dict_get key d = Some (VStr input).

Definition success_envelope (d : pydict) : Prop :=
  dict_get "success" d = Some (VBool true).

(** The keys of a dictionary, in order. *)
Definition dict_keys (d : pydict) : list string := d.*1.

(** The configuration a manager carries. *)
Definition config_of (m : BrowserManager) : bool * Z * Z * Z :=
  (_headless m, _browser_timeout m, _viewport_width m, _viewport_height m).

(** The number of engine launches in a trace. *)
Definition is_launch (e : event) : bool :=
  match e with
  | EvLaunch _ _ _ => true
  | _ => false
  end.

Definition launches (t : list event) : nat :=
  length (filter (fun e => is_launch e = true) t).

(** The handle a manager holds is fully released in a world: its page is
    closed, its engine disconnected, its driver stopped. *)
Definition released (m : BrowserManager) (w : World) : Prop :=
  (forall p, _page m = Some p -> is_closed w p = true)
  /\ (forall b, _browser m = Some b -> is_connected w b = false)
  /\ (forall d, _playwright m = Some d -> driver_running w d = false).

(** The network words [parse_playwright_error] looks for first. *)
Definition network_words : list string :=
  ["net::err_name_not_resolved"; "dns"; "net::err_connection_refused"; "ssl";
   "certificate"].

(** Every value a computation returns satisfies [Q]. *)
Definition returns {S A} (Q : A -> Prop) (m : M S A) : Prop :=
  forall s a s', m s = (Ret a, s') -> Q a.

(** The manager holds page [p] and it is open: an acquisition returns it
    without initializing. *)
Definition live_page (s : State) (p : nat) : Prop :=
  _page (mgr s) = Some p /\ is_closed (world s) p = false.

(** ** Vocabulary of the properties of acquisition *)

(** Whether a library call that an initialization makes from a state is
    set to fail: the start of the driver counts only when there is no
    driver yet. *)
Definition init_fault (env : InitEnv) (s : State) : bool :=
  bool_decide (_playwright (mgr s) = None) && bool_decide (on_start env <> None)
  || bool_decide (on_launch env <> None)
  || bool_decide (on_new_context env <> None)
  || bool_decide (on_new_page env <> None).

(** The classes of the exceptions [ensure_browser] raises. *)
Definition init_error_classes : list exc_class :=
  [TimeoutError_; PwError; RuntimeError_].



(** [await page.title()] on an open page answers this. *)
Definition page_title (w : World) (p : nat) : string :=
  match pages w !! p with
  | Some o => pg_title o
  | None => ""
  end.

(** The state after a first acquisition in which a caller then resized
    the page ([page.set_viewport_size]): the live viewport is no longer
    the configured one. *)
Definition resized : State :=
  MkState (mgr acquired)
    (set_pages (alter (fun o => MkPage (pg_closed o) (pg_context o) (Some (800, 600))
                                  (pg_url o) (pg_title o)) 0%nat (pages (world acquired)))
       (world acquired)).

(** The state after a first acquisition whose engine then died. *)
Definition engine_died : State :=
  run default_config [Acquire init_ok; BrowserDies 0] (cold true 30000 1920 1080).

(** * Properties *)

(** ** How computations compose *)

Section Preservation.

Context {A B : Type} (P : State -> Prop).

Lemma preserves_ret (a : A) : preserves P (ret a).
Proof. intros s H. exact H. Qed.

Lemma preserves_raise (e : exn) : preserves P (raise (A := A) e).
Proof. intros s H. exact H. Qed.

Lemma preserves_get : preserves P get.
Proof. intros s H. exact H. Qed.

Lemma preserves_gets (f : State -> A) : preserves P (gets f).
Proof. intros s H. exact H. Qed.

Lemma preserves_bind (m : M State A) (k : A -> M State B) :
  preserves P m -> (forall a, preserves P (k a)) -> preserves P (bind m k).
Proof.
  intros Hm Hk s H. unfold bind. specialize (Hm s H).
  destruct (m s) as [[a|e] s']; simpl in *; [apply Hk|]; assumption.
Qed.

Lemma preserves_try (m : M State A) (h : exn -> M State A) :
  preserves P m -> (forall e, preserves P (h e)) -> preserves P (try_except m h).
Proof.
  intros Hm Hh s H. unfold try_except. specialize (Hm s H).
  destruct (m s) as [[a|e] s']; simpl in *; [|apply Hh]; assumption.
Qed.

Lemma preserves_failing (fault : option exn) (m : M State A) :
  preserves P m -> preserves P (failing fault m).
Proof. intros Hm. destruct fault; [apply preserves_raise | exact Hm]. Qed.

End Preservation.

Lemma preserves_when (P : State -> Prop) (c : bool) (m : M State unit) :
  preserves P m -> preserves P (when c m).
Proof. intros Hm. destruct c; [exact Hm | apply preserves_ret]. Qed.

(** Breaks a goal [preserves P m] down along the shape of [m]. *)
Ltac preserve :=
  repeat lazymatch goal with
    | |- preserves _ (bind _ _) => apply preserves_bind; [|intros ?]
    | |- preserves _ (try_except _ _) => apply preserves_try; [|intros ?]
    | |- preserves _ (swallow _) => unfold swallow
    | |- preserves _ (when _ _) => apply preserves_when
    | |- preserves _ (failing _ _) => apply preserves_failing
    | |- preserves _ (ret _) => apply preserves_ret
    | |- preserves _ (raise _) => apply preserves_raise
    | |- preserves _ get => apply preserves_get
    | |- preserves _ (gets _) => apply preserves_gets
    | |- preserves _ (match ?x with _ => _ end) => destruct x
    end.

(** ** Store lookups after an allocation or an update *)

Lemma lookup_snoc {X} (l : list X) (x : X) : (l ++ [x])%list !! length l = Some x.
Proof. rewrite lookup_app_r by lia. rewrite Nat.sub_diag. reflexivity. Qed.

Lemma lookup_snoc_old {X} (l : list X) (x : X) (i : nat) (y : X) :
  l !! i = Some y -> (l ++ [x])%list !! i = Some y.
Proof. intros H. rewrite lookup_app_l; [exact H | eapply lookup_lt_Some, H]. Qed.

(** ** Readiness *)

Lemma is_initialized_true s :
  is_initialized s = true <->
  exists b p,
    _browser (mgr s) = Some b /\ is_connected (world s) b = true
    /\ _page (mgr s) = Some p /\ is_closed (world s) p = false.
Proof.
  destruct s as [m w]; unfold is_initialized; simpl. split.
  - destruct (_browser m) as [b|]; [|discriminate].
    destruct (_page m) as [p|]; rewrite andb_true_iff; [|intros [_ ?]; discriminate].
    rewrite negb_true_iff. intros [Hb Hp]. exists b, p. auto.
  - intros (b & p & -> & Hb & -> & Hp). rewrite Hb, Hp. reflexivity.
Qed.

(** C7. For every state, [is_initialized] is true if and only if the
    engine reference holds a browser that is connected and the page
    reference holds a page that is not closed; in the state with all three
    references empty it is false, whatever the configuration and the
    world. *)
Theorem is_initialized_iff :
  (forall s : State,
     is_initialized s = true <->
     exists b p,
       _browser (mgr s) = Some b /\ is_connected (world s) b = true
       /\ _page (mgr s) = Some p /\ is_closed (world s) p = false)
  /\ (forall headless timeout width height w,
        is_initialized
          (MkState (MkManager None None None headless timeout width height) w)
        = false).
Proof. split; [exact is_initialized_true | reflexivity]. Qed.

(** ** Running a computation by hand *)

Ltac run_m :=
  unfold swallow, try_except, bind, get, gets, when, failing, log, with_world,
    modify, ret, raise in *; simpl in *.

Lemma bind_ret {S A B} (m : M S A) (k : A -> M S B) s a s' :
  m s = (Ret a, s') -> bind m k s = k a s'.
Proof. intros H. unfold bind. rewrite H. reflexivity. Qed.

Lemma bind_raise {S A B} (m : M S A) (k : A -> M S B) s e s' :
  m s = (Raise e, s') -> bind m k s = (Raise e, s').
Proof. intros H. unfold bind. rewrite H. reflexivity. Qed.

(** ** Teardown *)

Lemma stopped_not_running (l : list driver_obj) (d : nat) :
  match alter (fun _ => MkDriver false) d l !! d with
  | Some o => drv_running o
  | None => false
  end = false.
Proof. rewrite list_lookup_alter_eq. destruct (l !! d); reflexivity. Qed.

(** [_cleanup_browser] returns normally from every state and under every
    failure of its calls, leaves the attributes alone, makes exactly the
    calls of [teardown_calls], and leaves the driver stopped when [stop]
    went through. *)
Lemma cleanup_browser_spec env s :
  exists w', _cleanup_browser env s = (Ret tt, MkState (mgr s) w')
    /\ trace w' = (trace (world s) ++ teardown_calls s)%list
    /\ (forall d, _playwright (mgr s) = Some d -> on_stop env = None ->
        driver_running w' d = false).
Proof.
  destruct s as [[pw br pg h t vw vh] w], env as [f1 f2 f3].
  unfold _cleanup_browser, teardown_calls, pw_page_close, pw_browser_close, pw_stop,
    is_closed, is_connected, driver_running.
  run_m.
  destruct pg as [p|]; [destruct (pages w !! p) as [[[] ? ? ? ?]|]|]; simpl;
  destruct f1; simpl;
  (destruct br as [b|]; [destruct (browsers w !! b) as [[[] ? ?]|]|]; simpl);
  destruct f2; simpl; destruct pw; simpl; destruct f3; simpl;
  eexists; (split; [reflexivity|]); simpl;
  (split; [rewrite <- ?app_assoc, ?app_nil_r; reflexivity|]);
  intros d' Hd' Hf; try discriminate; injection Hd' as ->; apply stopped_not_running.
Qed.

Lemma cleanup_absent env headless timeout width height w :
  let s := MkState (MkManager None None None headless timeout width height) w in
  cleanup env s = (Ret tt, s).
Proof. reflexivity. Qed.

(** C6. [cleanup] returns normally from every state and whatever its three
    close calls raise; afterwards the driver, browser and page references
    are all empty; the calls it made are those the state alone decides
    (close the page if open, close the browser if connected, stop the
    driver if there is one), so a failure of one does not cancel the next;
    a second [cleanup] right after, or a [cleanup] on a manager that never
    acquired anything, returns normally and changes nothing. *)
Theorem cleanup_never_raises :
  (forall env env' s,
     let s' := (cleanup env s).2 in
     (cleanup env s).1 = Ret tt
     /\ absent (mgr s')
     /\ trace (world s') = (trace (world s) ++ teardown_calls s)%list
     /\ cleanup env' s' = (Ret tt, s'))
  /\ (forall env headless timeout width height w,
        let s := MkState (MkManager None None None headless timeout width height) w in
        cleanup env s = (Ret tt, s)).
Proof.
  split; [|intros; apply cleanup_absent].
  intros env env' s. destruct (cleanup_browser_spec env s) as (w' & Hc & Ht & _).
  unfold cleanup. rewrite (bind_ret _ _ _ _ _ Hc). cbn.
  split; [reflexivity|]. split; [repeat split|]. split; [exact Ht|].
  apply (cleanup_absent env').
Qed.

(** ** Restart *)

(** C3. Whenever the manager holds a driver and the teardown's [stop] goes
    through, [restart_browser] raises the library's [Error] instead of
    returning a page: the driver reference is kept across the teardown, so
    the launch goes through the stopped driver. This is the case after
    every successful acquisition. *)
Theorem restart_reuses_stopped_driver cenv env s d :
  _playwright (mgr s) = Some d -> on_stop cenv = None ->
  exists e s',
    restart_browser cenv env s = (Raise e, s')
    /\ exc_cls e = PwError
    /\ _playwright (mgr s') = Some d
    /\ driver_running (world s') d = false
    /\ _page (mgr s') = None.
Proof.
  intros Hd Hstop. destruct (cleanup_browser_spec cenv s) as (w' & Hc & _ & Hrun).
  specialize (Hrun d Hd Hstop).
  unfold restart_browser. rewrite (bind_ret _ _ _ _ _ Hc).
  destruct s as [[pw br pg h t vw vh] w]. simpl in Hd. subst pw.
  unfold ensure_browser, initialize, pw_launch, needs_init. run_m.
  unfold driver_running in *. simpl. rewrite Hrun. simpl.
  eexists _, _. split; [reflexivity|]. simpl. rewrite Hrun. auto.
Qed.

Lemma restart_reuses_stopped_driver_witness :
  _playwright (mgr acquired) = Some 0%nat /\ on_stop cleanup_ok = None
  /\ is_initialized acquired = true
  /\ exists e s',
       restart_browser cleanup_ok init_ok acquired = (Raise e, s')
       /\ exc_cls e = PwError
       /\ _playwright (mgr s') = Some 0%nat
       /\ driver_running (world s') 0 = false
       /\ _page (mgr s') = None.
Proof.
  split; [reflexivity|]. split; [reflexivity|]. split; [reflexivity|].
  apply (restart_reuses_stopped_driver cleanup_ok init_ok acquired 0); reflexivity.
Defined.

(** ** Acquisition *)

(** With a page that is not closed in the page slot, [ensure_browser]
    returns that page and does nothing else. *)
Lemma ensure_browser_skips env s :
  needs_init s = false -> ensure_browser env s = (Ret (_page (mgr s)), s).
Proof. intros H. unfold ensure_browser. run_m. rewrite H. reflexivity. Qed.

(** Whatever the classification is handed, what it builds is of one of
    the three classes. *)
Lemma classify_in_classes timeout e :
  exc_cls (classify_init_error timeout e) ∈ init_error_classes.
Proof.
  unfold classify_init_error, init_error_classes.
  destruct (isinstance e TimeoutError_); [apply list_elem_of_here|].
  destruct (isinstance e PwError); simpl;
    repeat first [apply list_elem_of_here | apply list_elem_of_further].
Qed.

(** What a raising [ensure_browser] leaves: the page slot as it was, the
    manager not ready, and the browser slot as it was when the last call
    was the start of the driver or the launch. *)
Lemma ensure_browser_raise_state env s e s' :
  ensure_browser env s = (Raise e, s') ->
  exc_cls e ∈ init_error_classes
  /\ _page (mgr s') = _page (mgr s)
  /\ is_initialized s' = false
  /\ match last_call s' with
     | Some EvStart | Some (EvLaunch _ _ _) => _browser (mgr s') = _browser (mgr s)
     | _ => True
     end.
Proof.
  destruct s as [[pw br pg h t vw vh] w], env as [f1 f2 f3 f4].
  unfold ensure_browser, initialize, needs_init, pw_start, pw_launch, pw_new_context,
    pw_new_page, last_call, is_initialized,
    context_connected, is_connected, is_closed, driver_running.
  run_m.
  destruct pg as [p|]; [destruct (pages w !! p) as [[[] ? ? ? ?]|] eqn:Hp|]; simpl;
    try discriminate.
  all: destruct br as [b0|], pw as [d|]; simpl.
  all: try (destruct f1; simpl).
  all: rewrite ?lookup_snoc; simpl.
  all: try (destruct (drivers w !! d) as [[[]]|]; simpl).
  all: try (destruct f2; simpl).
  all: rewrite ?lookup_snoc; simpl.
  all: try (destruct f3; simpl).
  all: rewrite ?lookup_snoc; simpl; rewrite ?lookup_snoc; simpl.
  all: try (destruct f4; simpl).
  all: intros H; try discriminate; injection H as <- <-.
  all: split; [apply classify_in_classes|]; simpl.
  all: rewrite ?last_snoc, ?lookup_snoc, ?Hp; simpl; rewrite ?andb_false_r; auto.
Qed.

(** A call set to fail makes the initialization, and with it
    [ensure_browser], raise: no [except] clause swallows it. *)
Lemma init_fault_raises env s :
  needs_init s = true -> init_fault env s = true ->
  exists e s', ensure_browser env s = (Raise e, s').
Proof.
  destruct s as [[pw br pg h t vw vh] w], env as [f1 f2 f3 f4].
  unfold ensure_browser, initialize, init_fault, pw_start, pw_launch, pw_new_context,
    pw_new_page, context_connected, is_connected, driver_running.
  run_m. intros -> Hf. simpl.
  destruct pw as [d|]; simpl in *.
  all: try (destruct f1; simpl in * ).
  all: rewrite ?lookup_snoc; simpl.
  all: try (destruct (drivers w !! d) as [[[]]|]; simpl).
  all: try (destruct f2; simpl in * ).
  all: rewrite ?lookup_snoc; simpl.
  all: try (destruct f3; simpl in * ).
  all: rewrite ?lookup_snoc; simpl; rewrite ?lookup_snoc; simpl.
  all: try (destruct f4; simpl in * ).
  all: try (eexists _, _; reflexivity).
  all: exfalso; revert Hf; rewrite ?bool_decide_eq_false_2 by (intros H; apply H; reflexivity);
       rewrite ?andb_false_r; simpl; discriminate.
Qed.

(** C1 (amended). When a library call of an initialization inside
    [ensure_browser] fails (the start of the driver, the launch of the
    engine, the opening of the context or of the page), the call raises,
    with an exception of one of its three classes; afterwards the page slot
    is as it was before the call, so no page of the failed initialization
    is held and the manager is not ready; and when the call that failed is
    the start of the driver or the launch, the browser slot is as it was
    too, so that on a first acquisition both slots are still empty. *)
Theorem failed_initialization_raises env s :
  needs_init s = true -> init_fault env s = true ->
  exists e s',
    ensure_browser env s = (Raise e, s')
    /\ exc_cls e ∈ init_error_classes
    /\ _page (mgr s') = _page (mgr s)
    /\ is_initialized s' = false
    /\ match last_call s' with
       | Some EvStart | Some (EvLaunch _ _ _) => _browser (mgr s') = _browser (mgr s)
       | _ => True
       end.
Proof.
  intros Hn Hf. destruct (init_fault_raises env s Hn Hf) as (e & s' & He).
  exists e, s'. split; [exact He|]. exact (ensure_browser_raise_state env s e s' He).
Qed.

Lemma failed_initialization_raises_witness :
  let env := MkInitEnv None (Some boom) None None in
  needs_init initial = true
  /\ init_fault env initial = true
  /\ exists e s',
       ensure_browser env initial = (Raise e, s')
       /\ exc_cls e ∈ init_error_classes
       /\ _page (mgr s') = _page (mgr initial)
       /\ is_initialized s' = false
       /\ match last_call s' with
          | Some EvStart | Some (EvLaunch _ _ _) =>
              _browser (mgr s') = _browser (mgr initial)
          | _ => True
          end.
Proof.
  intros env. split; [reflexivity|]. split; [reflexivity|].
  apply (failed_initialization_raises env initial); reflexivity.
Defined.

(** At the witness the launch is what fails: both slots are still empty. *)
Lemma failed_launch_leaves_slots_empty :
  let r := ensure_browser (MkInitEnv None (Some boom) None None) initial in
  r.1 = Raise (classify_init_error 30000 boom)
  /\ handle_absent (mgr r.2)
  /\ last_call r.2 = Some (EvLaunch 0 true 30000).
Proof. vm_compute. repeat split. Qed.

(** C1 (as stated) fails: opening the context fails on a cold manager, the
    call raises, and the browser slot is not empty afterwards. *)
Lemma partial_handle_left_behind :
  exists e s',
    ensure_browser context_fails initial = (Raise e, s')
    /\ ~ handle_absent (mgr s').
Proof.
  eexists _, _. split; [reflexivity|]. intros [H _]. discriminate H.
Qed.

(** C2. After an acquisition, the death of the page alone, and a second
    acquisition, two engines are connected: the second acquisition launched
    a new engine and put it in the browser slot without closing the one it
    replaced. *)
Theorem dead_page_reinit_leaks_engine :
  let s := run default_config [Acquire init_ok; PageDies 0; Acquire init_ok] initial in
  live_browsers (world s) = [0; 1]%nat
  /\ _browser (mgr s) = Some 1%nat
  /\ trace (world s)
     = [EvStart; EvLaunch 0 true 30000; EvNewContext 0 1920 1080; EvNewPage 0;
        EvLaunch 0 true 30000; EvNewContext 1 1920 1080; EvNewPage 1].
Proof. vm_compute. auto. Qed.

(** The same leak without any death out of band: an initialization that
    fails after its launch, then one that succeeds. *)
Lemma failed_init_then_retry_leaks_engine :
  let s := run default_config [Acquire context_fails; Acquire init_ok] initial in
  live_browsers (world s) = [0; 1]%nat /\ _browser (mgr s) = Some 1%nat.
Proof. vm_compute. auto. Qed.

(** What [restart_browser] does on the same dead page, when the manager
    holds no driver yet to trip over: the old engine is closed before the
    new one is launched. *)
Lemma teardown_closes_engine_first :
  let s := (_cleanup_browser cleanup_ok (page_dies 0 acquired)).2 in
  live_browsers (world s) = [].
Proof. vm_compute. reflexivity. Qed.


(** ** Classification of initialization failures *)

(** The three [except] clauses: the builtin [TimeoutError] first, then the
    library's [Error] with all its subclasses, then everything else. *)
Lemma classify_init_error_class timeout e :
  exc_cls (classify_init_error timeout e)
  = if isinstance e TimeoutError_ then TimeoutError_
    else if isinstance e PwError then PwError
    else RuntimeError_.
Proof.
  unfold classify_init_error.
  destruct (isinstance e TimeoutError_); [reflexivity|].
  destruct (isinstance e PwError); reflexivity.
Qed.

(** C5. A launch that exceeds its budget makes Playwright raise its own
    [TimeoutError]; [ensure_browser] re-raises it as the library's [Error]
    with the hint to install the browsers, not as the builtin
    [TimeoutError] that names the budget. *)
Theorem playwright_timeout_classified_as_launch_error :
  exists msg s',
    ensure_browser launch_times_out initial = (Raise (Exn PwError msg), s')
    /\ msg = "Failed to launch browser: Timeout 30000ms exceeded.. "
             ++ "Ensure Playwright browsers are installed with 'playwright install chromium'"
    /\ PyStr.contains msg "timed out after" = false
    /\ isinstance (Exn PwError msg) TimeoutError_ = false.
Proof. eexists _, _. split; [reflexivity|]. repeat split. Qed.

(** The clause the docstring promises for a launch over budget is reached
    by the builtin [TimeoutError] only. *)
Lemma builtin_timeout_classified_as_timeout text :
  classify_init_error 30000 (Exn TimeoutError_ text)
  = Exn TimeoutError_
      "Browser launch timed out after 30000ms. Try increasing BROWSER_TIMEOUT in .env".
Proof. reflexivity. Qed.

(** ** What the operations keep *)

Ltac prim_unfold :=
  unfold pw_start, pw_launch, pw_new_context, pw_new_page, pw_page_close,
    pw_browser_close, pw_stop, pw_goto, pw_title, pw_screenshot, fs_mkdir,
    fs_stat_size, set_playwright, set_browser, set_page.

Ltac case_goal :=
  repeat match goal with
         | |- context [match ?x with _ => _ end] => destruct x; simpl
         end.

Create HintDb stable.
#[global] Hint Resolve stable_set_playwright stable_set_browser stable_set_page
  stable_start stable_launch stable_new_context stable_new_page stable_page_close
  stable_browser_close stable_stop stable_goto stable_title stable_screenshot
  stable_stat : stable.

Lemma get_viewport_size_state s : (get_viewport_size s).2 = s.
Proof. unfold get_viewport_size. run_m. case_goal; reflexivity. Qed.

Section Stable.

Context (P : State -> Prop) `{!BrowserStable P}.

Lemma stable_ensure_browser env : preserves P (ensure_browser env).
Proof. unfold ensure_browser, initialize. preserve; auto with stable. Qed.

Lemma stable_cleanup_browser env : preserves P (_cleanup_browser env).
Proof. unfold _cleanup_browser. preserve; auto with stable. Qed.

Lemma stable_restart_browser cenv env : preserves P (restart_browser cenv env).
Proof.
  unfold restart_browser. preserve;
    auto using stable_cleanup_browser, stable_ensure_browser with stable.
Qed.

Lemma stable_cleanup env : preserves P (cleanup env).
Proof. unfold cleanup. preserve; auto using stable_cleanup_browser with stable. Qed.

Lemma stable_get_viewport_size : preserves P get_viewport_size.
Proof. intros s H. rewrite get_viewport_size_state. exact H. Qed.

Lemma stable_navigate cfg env url wait_until :
  preserves P (navigate cfg env url wait_until).
Proof.
  unfold navigate, get_page. preserve; auto using stable_ensure_browser with stable.
Qed.

End Stable.

(** *** Viewports *)

(** A call that leaves contexts and pages alone keeps [viewports_set]. *)
Ltac keep_viewports :=
  intros [m w] H; prim_unfold; run_m; case_goal; exact H.

Lemma vp_new_context f b width height :
  preserves viewports_set (pw_new_context f b width height).
Proof.
  intros [m w] [Hc Hp]. prim_unfold. run_m. case_goal; try (split; assumption).
  split; [|exact Hp]. simpl. apply Forall_app. split; [exact Hc|].
  constructor; [eexists; reflexivity | constructor].
Qed.

Lemma vp_new_page f c : preserves viewports_set (pw_new_page f c).
Proof.
  intros [m w] [Hc Hp]. prim_unfold. unfold context_connected. run_m.
  destruct (contexts w !! c) as [o|] eqn:Ho; simpl; [|split; assumption].
  case_goal; try (split; assumption).
  split; [exact Hc|]. simpl. apply Forall_app. split; [exact Hp|].
  constructor; [|constructor]. simpl.
  eapply (proj1 (Forall_lookup _ _) Hc); exact Ho.
Qed.

Lemma vp_page_close f p : preserves viewports_set (pw_page_close f p).
Proof.
  intros [m w] [Hc Hp]. prim_unfold. run_m. case_goal; try (split; assumption).
  split; [exact Hc|]. simpl. apply Forall_alter; [exact Hp|]. intros o _ H. exact H.
Qed.

Lemma vp_browser_close f b : preserves viewports_set (pw_browser_close f b).
Proof.
  intros [m w] [Hc Hp]. prim_unfold. unfold close_pages_of. run_m.
  destruct f; simpl; [split; assumption|].
  split; [exact Hc|]. simpl. apply Forall_fmap.
  eapply Forall_impl; [exact Hp|]. intros o H. simpl. case_goal; exact H.
Qed.

Lemma vp_goto f landed title p url wu t :
  preserves viewports_set (pw_goto f landed title p url wu t).
Proof.
  intros [m w] [Hc Hp]. prim_unfold. run_m. case_goal; try (split; assumption).
  split; [exact Hc|]. simpl. apply Forall_alter; [exact Hp|]. intros o _ H. exact H.
Qed.

Lemma vp_mkdir f p : preserves viewports_set (fs_mkdir f p).
Proof. keep_viewports. Qed.

#[global] Instance viewports_stable : BrowserStable viewports_set.
Proof.
  split; intros;
    first [ apply vp_new_context | apply vp_new_page | apply vp_page_close
          | apply vp_browser_close | apply vp_goto | keep_viewports ].
Qed.
#[global] Hint Resolve viewports_stable : stable.

Lemma vp_screenshot_tool cfg env path full_page :
  preserves viewports_set (screenshot cfg env path full_page).
Proof.
  pose proof (stable_ensure_browser viewports_set).
  pose proof (stable_get_viewport_size viewports_set).
  unfold screenshot, get_page. preserve; auto using vp_mkdir with stable.
Qed.

Lemma vp_step cfg a : forall s, viewports_set s -> viewports_set (step cfg a s).
Proof.
  destruct a; simpl.
  - apply (stable_ensure_browser viewports_set).
  - apply (stable_restart_browser viewports_set).
  - apply (stable_cleanup viewports_set).
  - apply (stable_navigate viewports_set).
  - apply vp_screenshot_tool.
  - intros [m w] [Hc Hp]. split; [exact Hc|]. simpl.
    apply Forall_alter; [exact Hp|]. intros o _ H. exact H.
  - intros [m w] [Hc Hp]. split; [exact Hc|]. simpl. unfold close_pages_of.
    apply Forall_fmap. eapply Forall_impl; [exact Hp|]. intros o H. simpl.
    case_goal; exact H.
Qed.

Lemma vp_reachable s : reachable s -> viewports_set s.
Proof.
  intros (cfg & h & t & vw & vh & l & ->).
  assert (H0 : viewports_set (cold h t vw vh)) by (split; constructor).
  revert H0. generalize (cold h t vw vh). induction l as [|a l IH]; intros s H.
  - exact H.
  - simpl. apply IH, vp_step, H.
Qed.

(** C8. Every state the process can reach has a viewport on each of its
    pages, the manager never opening a context without one. In every
    state whose pages have a viewport, whatever the viewports are,
    [get_viewport_size] returns normally and leaves the state as it is;
    when the manager is ready the answer is the width and height of the
    page in the page slot, and otherwise it is the configured width and
    height. *)
Theorem get_viewport_size_total :
  (forall s, reachable s -> viewports_set s)
  /\ (forall s,
        viewports_set s ->
        exists d,
          get_viewport_size s = (Ret d, s)
          /\ if is_initialized s then
               exists p w h,
                 _page (mgr s) = Some p
                 /\ viewport_size (world s) p = Some (w, h)
                 /\ d = [("width", VInt w); ("height", VInt h)]
             else
               d = [("width", VInt (_viewport_width (mgr s)));
                    ("height", VInt (_viewport_height (mgr s)))]).
Proof.
  split; [exact vp_reachable|].
  intros s [_ Hp].
  destruct s as [m w]. unfold get_viewport_size. run_m.
  destruct (is_initialized (MkState m w)) eqn:Hi.
  - apply is_initialized_true in Hi as (b & p & _ & _ & Hpage & Hclosed).
    simpl in *. rewrite Hpage. unfold viewport_size, is_closed in *.
    destruct (pages w !! p) as [o|] eqn:Ho; [|discriminate].
    destruct (proj1 (Forall_lookup _ _) Hp p o Ho) as [[vw vh] Hv].
    rewrite Hv. eexists. split; [reflexivity|]. exists p, vw, vh.
    rewrite ?Ho. auto.
  - destruct (_page m); eexists; split; reflexivity.
Qed.

Lemma get_viewport_size_total_witness :
  viewports_set resized
  /\ is_initialized resized = true
  /\ viewport_size (world resized) 0 = Some (800, 600)
  /\ _viewport_width (mgr resized) = 1920
  /\ exists d,
       get_viewport_size resized = (Ret d, resized)
       /\ if is_initialized resized then
            exists p w h,
              _page (mgr resized) = Some p
              /\ viewport_size (world resized) p = Some (w, h)
              /\ d = [("width", VInt w); ("height", VInt h)]
          else
            d = [("width", VInt (_viewport_width (mgr resized)));
                 ("height", VInt (_viewport_height (mgr resized)))].
Proof.
  assert (Hv : viewports_set resized).
  { split; vm_compute; repeat constructor; eexists; reflexivity. }
  split; [exact Hv|]. split; [reflexivity|]. split; [reflexivity|]. split; [reflexivity|].
  exact (proj2 get_viewport_size_total resized Hv).
Defined.

(** On the resized page the answer is the live viewport, not the
    configured one. *)
Lemma get_viewport_size_live :
  get_viewport_size resized
  = (Ret [("width", VInt 800); ("height", VInt 600)], resized).
Proof. vm_compute. reflexivity. Qed.

(** A reachable state on which the theorem applies through its first
    part. *)
Lemma get_viewport_size_reachable :
  reachable acquired
  /\ get_viewport_size acquired
     = (Ret [("width", VInt 1920); ("height", VInt 1080)], acquired).
Proof.
  split.
  - exists default_config, true, 30000, 1920, 1080, [Acquire init_ok].
    vm_compute. reflexivity.
  - vm_compute. reflexivity.
Qed.

(** ** The handle stays coherent *)























(** What the acquisition after the death of the engine does: it launches
    a second engine and returns its page. *)
Lemma acquisition_after_engine_death :
  let r := ensure_browser init_ok engine_died in
  r.1 = Ret (Some 1%nat)
  /\ is_initialized r.2 = true
  /\ live_browsers (world r.2) = [1%nat].
Proof. vm_compute. auto. Qed.

(** [get_current_url] is a probe: it returns normally and changes
    nothing, so it never initializes. *)
Lemma get_current_url_state s :
  exists u, get_current_url s = (Ret u, s).
Proof.
  unfold get_current_url. run_m.
  destruct (_page (mgr s)); [destruct (is_initialized s)|]; eexists; reflexivity.
Qed.

(** After the first acquisition the live viewport is the configured one. *)
Lemma get_viewport_size_after_first_init headless timeout width height :
  let s := (ensure_browser init_ok (cold headless timeout width height)).2 in
  is_initialized s = true
  /\ get_viewport_size s
     = (Ret [("width", VInt width); ("height", VInt height)], s).
Proof. split; reflexivity. Qed.

(** Before any acquisition the answer is the configuration. *)
Lemma get_viewport_size_cold headless timeout width height :
  get_viewport_size (cold headless timeout width height)
  = (Ret [("width", VInt width); ("height", VInt height)],
     cold headless timeout width height).
Proof. reflexivity. Qed.

(** *** Directories and the order of calls *)

Ltac keep_dirs_calls :=
  intros [m w] [Hd [rest Ht]]; prim_unfold; run_m; case_goal;
  (split; [exact Hd | simpl; rewrite ?Ht, <- ?app_assoc; eexists; reflexivity]).

#[global] Instance dirs_and_calls_stable l pre : BrowserStable (dirs_and_calls l pre).
Proof. split; intros; keep_dirs_calls. Qed.
#[global] Hint Resolve dirs_and_calls_stable : stable.

Lemma in_chain p : parts p <> [] -> p ∈ Pathlib.chain p.
Proof.
  intros Hne. apply list_elem_of_In. unfold Pathlib.chain. apply in_map_iff.
  exists (length (parts p)). split.
  - rewrite firstn_all. destruct p; reflexivity.
  - apply in_seq. destruct (parts p); [contradiction | simpl; lia].
Qed.

(** [mkdir] either raises right after it was called, or returns with the
    directory in place. *)
Lemma fs_mkdir_spec env p s :
  if mkdir_raises env s p then
    exists e, fs_mkdir (on_mkdir env) p s = (Raise e, (log (EvMkdir p) s).2)
  else
    exists s1,
      fs_mkdir (on_mkdir env) p s = (Ret tt, s1)
      /\ is_dir (world s1) p = true
      /\ trace (world s1) = (trace (world s) ++ [EvMkdir p])%list.
Proof.
  destruct s as [m w]. unfold mkdir_raises, fs_mkdir. run_m.
  destruct (on_mkdir env) as [e|]; simpl; [eexists; reflexivity|].
  unfold is_file at 1. 
  destruct (existsb _ (Pathlib.chain p)) eqn:Hf; simpl.
  - eexists; reflexivity.
  - eexists. split; [reflexivity|]. split; [|reflexivity]. simpl.
    unfold is_dir at 1. simpl. apply orb_true_iff.
    destruct (decide (parts p = [])) as [He|Hne]; [left; apply bool_decide_eq_true, He|].
    right. apply bool_decide_eq_true. apply elem_of_app.
    destruct (decide (p ∈ dirs w)) as [Hin|Hnin]; [left; exact Hin|].
    right. apply list_elem_of_filter. split; [|apply in_chain, Hne].
    unfold is_dir. apply orb_false_iff. split; apply bool_decide_eq_false; assumption.
Qed.

(** *** The screenshot tool *)

Lemma error_response_fails error_type message suggestion path :
  dict_get "success"
    (create_error_response error_type message suggestion [("path", VStr path)])
  = Some (VBool false).
Proof. reflexivity. Qed.

(** C10. [screenshot] always returns an envelope. On a blank path or a
    suffix outside [valid_extensions] it is a validation error and nothing
    changed: no directory, no file, no call. Otherwise the first call made
    is the [mkdir] of the parent directory, before any call on the browser
    side: if it raises, the tool answers with a failure and made no other
    call; if it returns, the parent directory exists in the final state
    whatever the launch, the screenshot or any later call did. *)
Theorem screenshot_parent_directory cfg env path full_page s :
  let r := screenshot cfg env path full_page s in
  let parent := Pathlib.parent (Pathlib.Path path) in
  exists d,
    r.1 = Ret d
    /\ if path_blank path || negb (extension_ok path) then
         r.2 = s /\ is_validation_error d
       else if mkdir_raises env s parent then
         r.2 = (log (EvMkdir parent) s).2
         /\ dict_get "success" d = Some (VBool false)
       else
         is_dir (world r.2) parent = true
         /\ exists rest,
              trace (world r.2) = (trace (world s) ++ EvMkdir parent :: rest)%list.
Proof.
  intros r parent. subst r. unfold screenshot, try_except.
  destruct (path_blank path); simpl.
  { eexists. split; [reflexivity|]. split; [reflexivity|].
    repeat split. eexists; reflexivity. }
  destruct (extension_ok path); simpl.
  2:{ eexists. split; [reflexivity|]. split; [reflexivity|].
      repeat split. eexists; reflexivity. }
  fold parent. pose proof (fs_mkdir_spec env parent s) as Hm.
  destruct (mkdir_raises env s parent).
  - destruct Hm as [e He]. rewrite (bind_raise _ _ _ _ _ He).
    destruct (isinstance e PwTimeoutError); [|destruct (isinstance e PermissionError_)];
      [| |destruct (parse_playwright_error e)];
      (eexists; split; [reflexivity|]; split; [reflexivity|];
       apply error_response_fails).
  - destruct Hm as (s1 & He & Hdir & Htr). rewrite (bind_ret _ _ _ _ _ He).
    match goal with
    | |- context [match ?c s1 with _ => _ end] =>
        assert (Hk : preserves (dirs_and_calls (dirs (world s1)) (trace (world s1))) c);
        [| specialize (Hk s1); destruct (c s1) as [[a|e] s2] ]
    end.
    + pose proof (stable_ensure_browser (dirs_and_calls (dirs (world s1)) (trace (world s1)))).
      pose proof (stable_get_viewport_size (dirs_and_calls (dirs (world s1)) (trace (world s1)))).
      unfold get_page. preserve; auto with stable.
    + assert (Hs : dirs_and_calls (dirs (world s1)) (trace (world s1)) s2).
      { apply Hk. split; [reflexivity|]. exists []. symmetry. apply app_nil_r. }
      destruct Hs as [Hd [rest Ht]]. simpl.
      eexists. split; [reflexivity|]. split.
      * unfold is_dir in *. rewrite Hd. exact Hdir.
      * exists rest. rewrite Ht, Htr, <- app_assoc. reflexivity.
    + assert (Hs : dirs_and_calls (dirs (world s1)) (trace (world s1)) s2).
      { apply Hk. split; [reflexivity|]. exists []. symmetry. apply app_nil_r. }
      destruct Hs as [Hd [rest Ht]]. simpl.
      destruct (isinstance e PwTimeoutError); [|destruct (isinstance e PermissionError_)];
        [| |destruct (parse_playwright_error e)];
        (eexists; split; [reflexivity|]; split;
         [ unfold is_dir in *; simpl; rewrite Hd; exact Hdir
         | exists rest; simpl; rewrite Ht, Htr, <- app_assoc; reflexivity ]).
Qed.

(** ** Navigation *)

(** C9. For every URL that starts with neither [http://] nor [https://],
    [navigate] returns the validation envelope (success false, error type
    [ValidationError], a suggestion, the URL echoed back) and the state is
    exactly the one before the call: no call was made, the manager did not
    initialize anything. *)
Theorem navigate_rejects_schemeless cfg env url wait_until s :
  PyStr.startswith url "http://" = false ->
  PyStr.startswith url "https://" = false ->
  navigate cfg env url wait_until s
  = (Ret [("success", VBool false);
          ("error", VStr "URL must start with http:// or https://");
          ("error_type", VStr "ValidationError");
          ("suggestion", VStr "Add http:// or https:// to the URL");
          ("url", VStr url)],
     s).
Proof.
  intros H1 H2. unfold navigate, try_except. rewrite H1, H2. reflexivity.
Qed.

Lemma navigate_rejects_schemeless_witness :
  PyStr.startswith "example.com" "http://" = false
  /\ PyStr.startswith "example.com" "https://" = false
  /\ navigate default_config
       (MkNavEnv init_ok None "https://example.com/" "Example Domain" None)
       "example.com" "load" initial
     = (Ret [("success", VBool false);
             ("error", VStr "URL must start with http:// or https://");
             ("error_type", VStr "ValidationError");
             ("suggestion", VStr "Add http:// or https:// to the URL");
             ("url", VStr "example.com")],
        initial).
Proof.
  split; [reflexivity|]. split; [reflexivity|].
  apply navigate_rejects_schemeless; reflexivity.
Defined.

(** A launch that fails after the directories were made: the tool answers
    with a failure and the directories are there. *)
Lemma screenshot_launch_fails_dirs_stay :
  let env := MkShotEnv launch_times_out None None 0 "" None in
  let r := screenshot default_config env "shots/today/home.PNG" false initial in
  (exists d, r.1 = Ret d /\ dict_get "success" d = Some (VBool false))
  /\ dirs (world r.2) = [MkPath "" ["shots"]; MkPath "" ["shots"; "today"]]
  /\ files (world r.2) = []
  /\ trace (world r.2)
     = [EvMkdir (MkPath "" ["shots"; "today"]); EvStart; EvLaunch 0 true 30000].
Proof. vm_compute. split; [eexists; split; reflexivity|]. auto. Qed.

(** The suffix is compared in lower case, and a name that is only a suffix
    has none. *)
Lemma extension_examples :
  extension_ok "a/b/shot.JPEG" = true
  /\ extension_ok "shot.txt" = false
  /\ extension_ok ".png" = false
  /\ extension_ok "archive.png.gz" = false
  /\ path_blank "   " = true.
Proof. vm_compute. auto. Qed.

(** * Further properties *)

(** ** The manager, further *)

(** What a successful [ensure_browser] leaves: the page it returns is in
    the page slot and is not closed. *)
Lemma ensure_browser_ret env s r s' :
  ensure_browser env s = (Ret r, s') ->
  r = _page (mgr s') /\ needs_init s' = false.
Proof.
  destruct (needs_init s) eqn:Hn.
  2:{ rewrite (ensure_browser_skips env s Hn). intros [= <- <-]. auto. }
  revert Hn.
  destruct s as [[pw br pg h t vw vh] w], env as [f1 f2 f3 f4].
  unfold ensure_browser, initialize, needs_init, pw_start, pw_launch, pw_new_context,
    pw_new_page, context_connected, is_connected, is_closed, driver_running.
  run_m. intros ->. simpl.
  destruct pw as [d|]; simpl.
  all: try (destruct f1; simpl).
  all: rewrite ?lookup_snoc; simpl.
  all: try (destruct (drivers w !! d) as [[[]]|]; simpl).
  all: try (destruct f2; simpl).
  all: rewrite ?lookup_snoc; simpl.
  all: try (destruct f3; simpl).
  all: rewrite ?lookup_snoc; simpl; rewrite ?lookup_snoc; simpl.
  all: try (destruct f4; simpl).
  all: intros H; try discriminate; injection H as <- <-; simpl.
  all: rewrite ?lookup_snoc; auto.
Qed.

(** X1. Whenever [ensure_browser] returns, what it returns is a page, that
    page is the one in the page slot and it is not closed; a further
    acquisition right after returns the same page and changes nothing,
    whatever its environment. *)
Theorem ensure_browser_returns_live_page env s r s' :
  ensure_browser env s = (Ret r, s') ->
  exists p,
    r = Some p
    /\ _page (mgr s') = Some p
    /\ is_closed (world s') p = false
    /\ forall env', ensure_browser env' s' = (Ret (Some p), s').
Proof.
  intros H. destruct (ensure_browser_ret env s r s' H) as [-> Hn].
  pose proof Hn as Hn'. unfold needs_init in Hn'.
  destruct (_page (mgr s')) as [p|] eqn:Hp; [|discriminate].
  exists p. repeat split; auto.
  intros env'. rewrite (ensure_browser_skips env' s' Hn), Hp. reflexivity.
Qed.

Lemma ensure_browser_returns_live_page_witness :
  ensure_browser init_ok initial = (Ret (Some 0%nat), acquired)
  /\ exists p,
       Some 0%nat = Some p
       /\ _page (mgr acquired) = Some p
       /\ is_closed (world acquired) p = false
       /\ forall env', ensure_browser env' acquired = (Ret (Some p), acquired).
Proof.
  assert (H : ensure_browser init_ok initial = (Ret (Some 0%nat), acquired))
    by (vm_compute; reflexivity).
  split; [exact H|].
  exact (ensure_browser_returns_live_page init_ok initial (Some 0%nat) acquired H).
Defined.

(** An initialization that starts from no driver and in which no call
    fails: what it returns and what it leaves. *)
Lemma first_init_succeeds s :
  _playwright (mgr s) = None -> needs_init s = true ->
  let w := world s in
  let m := mgr s in
  let p := length (pages w) in
  exists s',
    ensure_browser init_ok s = (Ret (Some p), s')
    /\ is_initialized s' = true
    /\ config_of (mgr s') = config_of m
    /\ _playwright (mgr s') = Some (length (drivers w))
    /\ viewport_size (world s') p = Some (_viewport_width m, _viewport_height m)
    /\ page_url (world s') p = "about:blank"
    /\ trace (world s')
       = (trace w ++ [EvStart;
                      EvLaunch (length (drivers w)) (_headless m) (_browser_timeout m);
                      EvNewContext (length (browsers w))
                        (_viewport_width m) (_viewport_height m);
                      EvNewPage (length (contexts w))])%list.
Proof.
  destruct s as [[pw br pg h t vw vh] w]. simpl. intros -> Hn.
  unfold ensure_browser, initialize, pw_start, pw_launch, pw_new_context,
    pw_new_page, context_connected, is_connected, is_closed, driver_running,
    is_initialized, viewport_size, page_url, config_of.
  run_m. rewrite Hn. simpl.
  rewrite ?lookup_snoc; simpl. rewrite ?lookup_snoc; simpl.
  rewrite ?lookup_snoc; simpl. rewrite ?lookup_snoc; simpl.
  eexists. split; [reflexivity|].
  unfold is_connected, is_closed, set_pages. simpl. rewrite ?lookup_snoc. simpl.
  rewrite <- !app_assoc. simpl. auto 10.
Qed.

(** X2. On a manager with empty slots, an initialization in which no call
    fails starts the driver, launches the engine with the configured
    headless flag and launch timeout, opens a context with the configured
    viewport and opens a page, in this order and with no other call; it
    returns the new page, the manager is ready, the page has the
    configured viewport and [get_current_url] answers [about:blank]. *)
Theorem first_acquisition_uses_configuration headless timeout width height w :
  let s := MkState (MkManager None None None headless timeout width height) w in
  let p := length (pages w) in
  exists s',
    ensure_browser init_ok s = (Ret (Some p), s')
    /\ is_initialized s' = true
    /\ viewport_size (world s') p = Some (width, height)
    /\ get_current_url s' = (Ret (Some "about:blank"), s')
    /\ trace (world s')
       = (trace w ++ [EvStart;
                      EvLaunch (length (drivers w)) headless timeout;
                      EvNewContext (length (browsers w)) width height;
                      EvNewPage (length (contexts w))])%list.
Proof.
  intros s p.
  destruct (first_init_succeeds s eq_refl eq_refl)
    as (s' & He & Hi & _ & _ & Hv & Hu & Ht).
  exists s'. split; [exact He|]. split; [exact Hi|]. split; [exact Hv|].
  split; [|exact Ht].
  destruct (ensure_browser_ret _ _ _ _ He) as [Hp _].
  unfold get_current_url. run_m. rewrite <- Hp, Hi. subst p. rewrite Hu. reflexivity.
Qed.

(** Closing the pages of a browser leaves a closed page closed, and a
    page identity without a page stays so. *)
Lemma close_pages_of_closed w b l p :
  match l !! p with Some o => pg_closed o | None => true end = true ->
  match close_pages_of w b l !! p with Some o => pg_closed o | None => true end = true.
Proof.
  unfold close_pages_of. change (map ?f l) with (f <$> l).
  rewrite list_lookup_fmap. destruct (l !! p) as [o|]; simpl; [|auto].
  intros H. destruct (contexts w !! pg_context o) as [c|]; [|exact H].
  destruct (ctx_browser c =? b)%nat; [reflexivity | exact H].
Qed.

Lemma closed_after_close (l : list page_obj) p :
  match alter (fun o => MkPage true (pg_context o) (pg_viewport o) (pg_url o) (pg_title o))
          p l !! p with
  | Some o => pg_closed o
  | None => true
  end = true.
Proof. rewrite list_lookup_alter_eq. destruct (l !! p); reflexivity. Qed.

Lemma disconnected_after_close (l : list browser_obj) b :
  match alter (fun o => MkBrowser false (br_driver o) (br_headless o)) b l !! b with
  | Some o => br_connected o
  | None => false
  end = false.
Proof. rewrite list_lookup_alter_eq. destruct (l !! b); reflexivity. Qed.

(** X3. When none of its close calls fails, [cleanup] leaves the page the
    manager held closed, the engine it held disconnected and the driver it
    held stopped. *)
Theorem cleanup_releases_handle s :
  released (mgr s) (world (cleanup cleanup_ok s).2).
Proof.
  destruct s as [[pw br pg h t vw vh] w].
  unfold released, cleanup, _cleanup_browser, pw_page_close, pw_browser_close, pw_stop,
    set_playwright, set_browser, set_page, is_closed, is_connected, driver_running.
  run_m.
  split; [|split].
  - intros p ->.
    destruct (pages w !! p) as [[[] ? ? ? ?]|] eqn:Hp; simpl;
      (destruct br as [b|]; [destruct (browsers w !! b) as [[[] ? ?]|]|]; simpl);
      destruct pw; simpl;
      try apply close_pages_of_closed; rewrite ?Hp; simpl; auto using closed_after_close.
  - intros b ->.
    (destruct pg as [p|]; [destruct (pages w !! p) as [[[] ? ? ? ?]|]|]; simpl);
      destruct (browsers w !! b) as [[[] ? ?]|] eqn:Hb; simpl;
      destruct pw; simpl; rewrite ?Hb; auto using disconnected_after_close.
  - intros d ->.
    (destruct pg as [p|]; [destruct (pages w !! p) as [[[] ? ? ? ?]|]|]; simpl);
      (destruct br as [b|]; [destruct (browsers w !! b) as [[[] ? ?]|]|]; simpl);
      apply stopped_not_running.
Qed.

(** On the handle of a first acquisition: all three are released. *)
Lemma cleanup_releases_acquired :
  let w := world (cleanup cleanup_ok acquired).2 in
  is_closed w 0 = true /\ is_connected w 0 = false /\ driver_running w 0 = false.
Proof. vm_compute. auto. Qed.

(** A teardown creates no page. *)
Lemma cleanup_browser_pages env s :
  length (pages (world (_cleanup_browser env s).2)) = length (pages (world s)).
Proof.
  destruct s as [[pw br pg h t vw vh] w], env as [f1 f2 f3].
  unfold _cleanup_browser, pw_page_close, pw_browser_close, pw_stop, close_pages_of.
  run_m.
  (destruct pg as [p|]; [destruct (is_closed w p)|]; simpl);
    destruct f1; simpl;
    (destruct br as [b|]; [destruct (is_connected _ b)|]; simpl);
    destruct f2; simpl; destruct pw; simpl; destruct f3; simpl;
    rewrite ?length_map, ?length_alter; reflexivity.
Qed.

(** X4. On a manager that holds no driver (never acquired, or cleaned up),
    [restart_browser] returns a page when no call of the initialization
    fails, whatever the teardown calls do: the page is new, blank, and the
    manager is ready. *)
Theorem restart_without_driver_succeeds cenv s :
  _playwright (mgr s) = None ->
  exists p s',
    restart_browser cenv init_ok s = (Ret (Some p), s')
    /\ is_initialized s' = true
    /\ pages (world s) !! p = None
    /\ page_url (world s') p = "about:blank".
Proof.
  intros Hd. pose proof (cleanup_browser_pages cenv s) as Hlen.
  destruct (cleanup_browser_spec cenv s) as (w' & Hc & _ & _).
  rewrite Hc in Hlen. simpl in Hlen.
  unfold restart_browser. rewrite (bind_ret _ _ _ _ _ Hc).
  destruct s as [[pw br pg h t vw vh] w]. simpl in Hd. subst pw.
  unfold set_browser, set_page. run_m.
  destruct (first_init_succeeds
              (MkState (MkManager None None None h t vw vh) w') eq_refl eq_refl)
    as (s' & He & Hi & _ & _ & _ & Hu & _).
  simpl in He, Hu. exists (length (pages w')), s'.
  split; [exact He|]. split; [exact Hi|]. split; [|exact Hu].
  apply lookup_ge_None. simpl. lia.
Qed.

Lemma restart_without_driver_succeeds_witness :
  _playwright (mgr initial) = None
  /\ exists p s',
       restart_browser cleanup_ok init_ok initial = (Ret (Some p), s')
       /\ is_initialized s' = true
       /\ pages (world initial) !! p = None
       /\ page_url (world s') p = "about:blank".
Proof.
  split; [reflexivity|].
  apply (restart_without_driver_succeeds cleanup_ok initial). reflexivity.
Defined.

(** X5. After [cleanup], from any state and whatever the close calls
    raised, an acquisition in which no call fails returns a new page with
    the manager ready, and launches exactly one engine. *)
Theorem acquisition_after_cleanup_succeeds cenv s :
  let s1 := (cleanup cenv s).2 in
  exists p s2,
    ensure_browser init_ok s1 = (Ret (Some p), s2)
    /\ is_initialized s2 = true
    /\ pages (world s) !! p = None
    /\ launches (trace (world s2)) = S (launches (trace (world s1))).
Proof.
  intros s1. subst s1. pose proof (cleanup_browser_pages cenv s) as Hlen.
  destruct (cleanup_browser_spec cenv s) as (w' & Hc & _ & _).
  rewrite Hc in Hlen. simpl in Hlen.
  unfold cleanup. rewrite (bind_ret _ _ _ _ _ Hc).
  destruct s as [[pw br pg h t vw vh] w].
  unfold set_playwright, set_browser, set_page. run_m.
  destruct (first_init_succeeds
              (MkState (MkManager None None None h t vw vh) w') eq_refl eq_refl)
    as (s' & He & Hi & _ & _ & _ & _ & Ht).
  simpl in He, Ht. exists (length (pages w')), s'.
  split; [exact He|]. split; [exact Hi|]. split.
  - apply lookup_ge_None. simpl. lia.
  - rewrite Ht. unfold launches. rewrite filter_app, length_app. simpl. lia.
Qed.

Lemma run_cons cfg a l s : run cfg (a :: l) s = run cfg l (step cfg a s).
Proof. reflexivity. Qed.

(** Acquisitions on a manager whose page is open change nothing. *)
Lemma run_acquire_ready cfg envs s :
  needs_init s = false -> run cfg (map Acquire envs) s = s.
Proof.
  intros Hn. induction envs as [|env envs IH]; [reflexivity|].
  rewrite map_cons, run_cons. unfold step.
  rewrite (ensure_browser_skips env s Hn). exact IH.
Qed.

(** X6. Any number of acquisitions one after the other on a cold manager,
    the first with no failing call, launch one engine in all: each later
    one returns page 0 and leaves the state of the first. *)
Theorem repeated_acquisition_launches_once cfg headless timeout width height envs :
  let s0 := cold headless timeout width height in
  let s1 := (ensure_browser init_ok s0).2 in
  run cfg (Acquire init_ok :: map Acquire envs) s0 = s1
  /\ launches (trace (world s1)) = 1%nat
  /\ forall env, ensure_browser env s1 = (Ret (Some 0%nat), s1).
Proof.
  intros s0 s1.
  assert (Hn : needs_init s1 = false) by (vm_compute; reflexivity).
  split; [|split].
  - rewrite run_cons. apply (run_acquire_ready cfg envs s1 Hn).
  - vm_compute. reflexivity.
  - intros env. rewrite (ensure_browser_skips env s1 Hn). vm_compute. reflexivity.
Qed.

(** *** The configuration *)

Lemma config_stable c : BrowserStable (fun s => config_of (mgr s) = c).
Proof. split; intros; intros [m w] H; prim_unfold; run_m; case_goal; exact H. Qed.

Lemma config_mkdir c f p : preserves (fun s => config_of (mgr s) = c) (fs_mkdir f p).
Proof. intros [m w] H. prim_unfold. run_m. case_goal; exact H. Qed.

Lemma config_screenshot c cfg env path full_page :
  preserves (fun s => config_of (mgr s) = c) (screenshot cfg env path full_page).
Proof.
  pose proof (config_stable c).
  pose proof (stable_ensure_browser (fun s => config_of (mgr s) = c)).
  pose proof (stable_get_viewport_size (fun s => config_of (mgr s) = c)).
  unfold screenshot, get_page. preserve; auto using config_mkdir with stable.
Qed.

(** X7. No operation, tool or death out of band changes the headless flag,
    the launch timeout or the viewport dimensions of the manager. *)
Theorem configuration_never_changes cfg l s :
  config_of (mgr (run cfg l s)) = config_of (mgr s).
Proof.
  revert s. induction l as [|a l IH]; intros s; [reflexivity|].
  simpl. rewrite IH. pose proof (config_stable (config_of (mgr s))) as Hst.
  destruct a; simpl.
  - apply (stable_ensure_browser (fun s0 => config_of (mgr s0) = config_of (mgr s)) env s eq_refl).
  - apply (stable_restart_browser (fun s0 => config_of (mgr s0) = config_of (mgr s)) cenv env s eq_refl).
  - apply (stable_cleanup (fun s0 => config_of (mgr s0) = config_of (mgr s)) cenv s eq_refl).
  - apply (stable_navigate (fun s0 => config_of (mgr s0) = config_of (mgr s)) cfg env url wait_until s eq_refl).
  - apply (config_screenshot (config_of (mgr s)) cfg env path full_page s eq_refl).
  - reflexivity.
  - reflexivity.
Qed.

(** ** Error classification in [server.py] *)

(** Membership in a list written out. *)
Ltac in_list := repeat first [apply list_elem_of_here | apply list_elem_of_further].

Lemma parsed_type_known e : (parse_playwright_error e).1 ∈ parsed_types.
Proof.
  unfold parse_playwright_error, parsed_types.
  repeat match goal with
         | |- context [if ?b then _ else _] => destruct b
         end; simpl; in_list.
Qed.

Lemma parsed_types_are_error_types x : x ∈ parsed_types -> x ∈ error_types.
Proof.
  unfold parsed_types, error_types. intros H. rewrite !elem_of_cons in H.
  destruct H as [->|[->|[->|[->|[->|H]]]]]; [in_list..|]. inversion H.
Qed.

(** X8. [parse_playwright_error] gives every exception one of the five
    types [NetworkError], [TimeoutError], [ElementNotFound],
    [InvalidElementState], [UnknownError], with a suggestion that is not
    empty. *)
Theorem parse_playwright_error_total e :
  (parse_playwright_error e).1 ∈ parsed_types
  /\ (parse_playwright_error e).2 <> "".
Proof.
  split; [apply parsed_type_known|].
  unfold parse_playwright_error.
  repeat match goal with
         | |- context [if ?b then _ else _] => destruct b
         end; simpl; discriminate.
Qed.

(** X9. An exception that is a builtin or a Playwright [TimeoutError] is
    typed [TimeoutError] whatever its message says, except that a network
    word in the message (in any letter case) makes it a [NetworkError]:
    the message is looked at before the class. *)
Theorem timeout_instances_classified e :
  isinstance e TimeoutError_ || isinstance e PwTimeoutError = true ->
  (parse_playwright_error e).1
  = if existsb (PyStr.contains (PyStr.lower (exc_msg e))) network_words
    then "NetworkError" else "TimeoutError".
Proof.
  intros H. unfold parse_playwright_error, network_words. simpl existsb.
  rewrite H, orb_true_r.
  destruct (PyStr.contains _ "net::err_name_not_resolved"); [reflexivity|].
  destruct (PyStr.contains _ "dns"); [reflexivity|].
  destruct (PyStr.contains _ "net::err_connection_refused"); [reflexivity|].
  destruct (PyStr.contains _ "ssl"); [reflexivity|].
  destruct (PyStr.contains _ "certificate"); reflexivity.
Qed.

Lemma timeout_instances_classified_witness :
  isinstance (Exn TimeoutError_ "Operation timed out") TimeoutError_
  || isinstance (Exn TimeoutError_ "Operation timed out") PwTimeoutError = true
  /\ (parse_playwright_error (Exn TimeoutError_ "Operation timed out")).1
     = "TimeoutError".
Proof.
  split; [reflexivity|].
  exact (timeout_instances_classified (Exn TimeoutError_ "Operation timed out") eq_refl).
Defined.

(** ** Dictionaries *)

Lemma dict_get_set_eq k v d : dict_get k (dict_set k v d) = Some v.
Proof.
  induction d as [|[k' v'] d IH]; simpl.
  - rewrite String.eqb_refl. reflexivity.
  - destruct (String.eqb k k') eqn:E; simpl; rewrite ?String.eqb_refl, ?E; auto.
Qed.

Lemma dict_get_set_ne k k' v d : k <> k' -> dict_get k (dict_set k' v d) = dict_get k d.
Proof.
  intros Hne. assert (E : String.eqb k k' = false) by (apply String.eqb_neq, Hne).
  induction d as [|[k2 v2] d IH]; simpl.
  - rewrite E. reflexivity.
  - destruct (String.eqb k' k2) eqn:E2; simpl.
    + apply String.eqb_eq in E2. subst k2. rewrite E. reflexivity.
    + rewrite IH. reflexivity.
Qed.

Lemma dict_get_none k (d : pydict) : k ∉ dict_keys d -> dict_get k d = None.
Proof.
  induction d as [|[k' v'] d IH]; simpl; [reflexivity|].
  intros Hnin. unfold dict_keys in *. simpl in Hnin.
  apply not_elem_of_cons in Hnin as [Hne Hnin].
  apply String.eqb_neq in Hne. rewrite Hne. apply IH, Hnin.
Qed.

Lemma dict_get_update k d kwargs :
  NoDup (dict_keys kwargs) ->
  dict_get k (dict_update d kwargs)
  = match dict_get k kwargs with
    | Some v => Some v
    | None => dict_get k d
    end.
Proof.
  unfold dict_update. revert d.
  induction kwargs as [|[k' v'] kwargs IH]; intros d Hnd; simpl; [reflexivity|].
  unfold dict_keys in Hnd. simpl in Hnd. apply NoDup_cons in Hnd as [Hnin Hnd].
  rewrite (IH _ Hnd). destruct (String.eqb k k') eqn:E.
  - apply String.eqb_eq in E. subst k'.
    rewrite (dict_get_none k kwargs Hnin). apply dict_get_set_eq.
  - apply String.eqb_neq in E. rewrite (dict_get_set_ne _ _ _ _ E). reflexivity.
Qed.

(** X10. For extra fields as a call can pass them (distinct names, none
    of them the name of a parameter), the response of
    [create_error_response] has [error_type] and [suggestion] as given;
    looking any key up gives the extra field of that name when there is
    one, and otherwise the fixed field, so every extra field is echoed
    back and one named [success] or [error] takes the place of the fixed
    one. *)
Theorem create_error_response_fields error_type message suggestion kwargs :
  NoDup (dict_keys kwargs) ->
  (forall name, name ∈ ["error_type"; "message"; "suggestion"] ->
                name ∉ dict_keys kwargs) ->
  let d := create_error_response error_type message suggestion kwargs in
  dict_get "error_type" d = Some (VStr error_type)
  /\ dict_get "suggestion" d = Some (VStr suggestion)
  /\ forall k,
       dict_get k d
       = match dict_get k kwargs with
         | Some v => Some v
         | None =>
             dict_get k [("success", VBool false); ("error", VStr message);
                         ("error_type", VStr error_type);
                         ("suggestion", VStr suggestion)]
         end.
Proof.
  intros Hnd Hpar d. subst d. unfold create_error_response.
  assert (Hget := fun k => dict_get_update k
                    [("success", VBool false); ("error", VStr message);
                     ("error_type", VStr error_type); ("suggestion", VStr suggestion)]
                    kwargs Hnd).
  split; [|split; [|exact Hget]].
  - rewrite Hget, (dict_get_none "error_type" kwargs); [reflexivity|].
    apply Hpar. in_list.
  - rewrite Hget, (dict_get_none "suggestion" kwargs); [reflexivity|].
    apply Hpar. in_list.
Qed.

Lemma create_error_response_fields_witness :
  let kwargs := [("url", VStr "https://example.com")] in
  let d := create_error_response "ValidationError" "Invalid input" "Check your input"
             kwargs in
  NoDup (dict_keys kwargs)
  /\ dict_get "error_type" d = Some (VStr "ValidationError")
  /\ dict_get "suggestion" d = Some (VStr "Check your input")
  /\ dict_get "url" d = Some (VStr "https://example.com").
Proof.
  intros kwargs d.
  assert (Hnd : NoDup (dict_keys kwargs)) by apply NoDup_singleton.
  assert (Hpar : forall name, name ∈ ["error_type"; "message"; "suggestion"] ->
                              name ∉ dict_keys kwargs).
  { intros name Hin Hk. apply list_elem_of_singleton in Hk. subst name.
    rewrite !elem_of_cons in Hin.
    destruct Hin as [H|[H|[H|H]]]; try discriminate H. inversion H. }
  destruct (create_error_response_fields "ValidationError" "Invalid input"
              "Check your input" kwargs Hnd Hpar) as (Ht & Hs & Hk).
  split; [exact Hnd|]. split; [exact Ht|]. split; [exact Hs|].
  exact (Hk "url").
Defined.

(** ** What the tools return *)

Section Returns.

Context {S A B : Type} (Q : B -> Prop).

Lemma returns_ret (b : B) : Q b -> returns (S := S) Q (ret b).
Proof. intros H s a s' [= <- _]. exact H. Qed.

Lemma returns_raise (e : exn) : returns (S := S) Q (raise e).
Proof. intros s a s' [=]. Qed.

Lemma returns_bind (m : M S A) (k : A -> M S B) :
  (forall a, returns Q (k a)) -> returns Q (bind m k).
Proof.
  intros Hk s b s'. unfold bind. destruct (m s) as [[a|e] s1]; [apply Hk | intros [=]].
Qed.

End Returns.

(** Breaks a goal [returns Q m] down along the shape of [m]. *)
Ltac returning :=
  repeat lazymatch goal with
    | |- returns _ (bind _ _) => apply returns_bind; intros ?
    | |- returns _ (raise _) => apply returns_raise
    | |- returns _ (ret _) => apply returns_ret
    | |- returns _ (match ?x with _ => _ end) => destruct x
    end.

Lemma dict_get_singleton k key v :
  dict_get k [(key, v)] = if String.eqb k key then Some v else None.
Proof. reflexivity. Qed.

(** An error response that echoes one input under a key of its own. *)
Lemma failure_envelope_intro types key input error_type message suggestion :
  error_type ∈ types ->
  key ∉ ["success"; "error"; "error_type"; "suggestion"] ->
  failure_envelope types key input
    (create_error_response error_type message suggestion [(key, VStr input)]).
Proof.
  intros Ht Hk. rewrite !not_elem_of_cons in Hk. destruct Hk as (H1 & H2 & H3 & H4 & _).
  apply not_eq_sym in H1, H2, H3, H4.
  apply String.eqb_neq in H1, H2, H3, H4.
  assert (Hnd : NoDup (dict_keys [(key, VStr input)])) by apply NoDup_singleton.
  unfold failure_envelope, create_error_response.
  rewrite !(dict_get_update _ _ _ Hnd), !dict_get_singleton, H1, H2, H3, H4.
  rewrite String.eqb_refl.
  split; [reflexivity|]. split; [eexists; reflexivity|].
  split; [eexists; split; [reflexivity | exact Ht]|].
  split; [eexists; reflexivity | reflexivity].
Qed.

Lemma url_key : "url" ∉ ["success"; "error"; "error_type"; "suggestion"].
Proof. rewrite !not_elem_of_cons. repeat split; try discriminate. apply not_elem_of_nil. Qed.

(** The [except] clauses shared by the tools: a fixed type for the
    library's timeout, the parsed type for anything else. *)
Lemma handler_envelope key input fixed message suggestion e :
  fixed ∈ error_types ->
  key ∉ ["success"; "error"; "error_type"; "suggestion"] ->
  failure_envelope error_types key input
    (if isinstance e PwTimeoutError then
       create_error_response fixed message suggestion [(key, VStr input)]
     else
       let '(error_type, suggestion) := parse_playwright_error e in
       create_error_response error_type (exc_msg e) suggestion [(key, VStr input)]).
Proof.
  intros Hf Hk. destruct (isinstance e PwTimeoutError).
  - apply failure_envelope_intro; assumption.
  - pose proof (parsed_type_known e) as Hp.
    destruct (parse_playwright_error e) as [t sg]. simpl in Hp.
    apply failure_envelope_intro; [apply parsed_types_are_error_types, Hp | exact Hk].
Qed.

(** X11. [navigate] returns a dictionary for every input, environment and
    state: either [success] is true, or it is a failure envelope with a
    message, a suggestion, an error type of the taxonomy and the URL
    echoed back. *)
Theorem navigate_never_raises cfg env url wait_until s :
  exists d,
    (navigate cfg env url wait_until s).1 = Ret d
    /\ (success_envelope d \/ failure_envelope error_types "url" url d).
Proof.
  unfold navigate, try_except.
  match goal with
  | |- context [match ?body s with _ => _ end] =>
      assert (Hb : returns
                (fun d => success_envelope d \/ failure_envelope error_types "url" url d)
                body);
      [| specialize (Hb s); destruct (body s) as [[d|e] s'] ]
  end.
  - returning; try (right; apply failure_envelope_intro; [in_list | apply url_key]).
    left. reflexivity.
  - exists d. split; [reflexivity | exact (Hb d s' eq_refl)].
  - pose proof (handler_envelope "url" url "TimeoutError"
                  ("Navigation timed out after "
                   ++ PyStr.of_int (NAVIGATION_TIMEOUT cfg) ++ "ms")
                  "Increase NAVIGATION_TIMEOUT or check if site is accessible" e) as He.
    destruct (isinstance e PwTimeoutError).
    + eexists. split; [reflexivity|]. right. apply He; [in_list | apply url_key].
    + destruct (parse_playwright_error e). eexists. split; [reflexivity|].
      right. apply He; [in_list | apply url_key].
Qed.

(** X12. With a URL that has a scheme and a [wait_until] outside [load],
    [domcontentloaded], [networkidle], [navigate] answers with the
    validation envelope naming the value, and the state is the one before
    the call. *)
Theorem navigate_rejects_wait_until cfg env url wait_until s :
  (PyStr.startswith url "http://" || PyStr.startswith url "https://") = true ->
  wait_until ∉ ["load"; "domcontentloaded"; "networkidle"] ->
  navigate cfg env url wait_until s
  = (Ret [("success", VBool false);
          ("error", VStr ("Invalid wait_until value: " ++ wait_until));
          ("error_type", VStr "ValidationError");
          ("suggestion", VStr "Use 'load', 'domcontentloaded', or 'networkidle'");
          ("url", VStr url)],
     s).
Proof.
  intros Hu Hw. unfold navigate, try_except. rewrite Hu.
  rewrite (bool_decide_eq_false_2 _ Hw). reflexivity.
Qed.

Lemma navigate_rejects_wait_until_witness :
  (PyStr.startswith "https://example.com" "http://"
   || PyStr.startswith "https://example.com" "https://") = true
  /\ ("invalid" ∉ ["load"; "domcontentloaded"; "networkidle"])
  /\ exists d,
       navigate default_config
         (MkNavEnv init_ok None "https://example.com/" "Example Domain" None)
         "https://example.com" "invalid" initial = (Ret d, initial)
       /\ dict_get "error_type" d = Some (VStr "ValidationError").
Proof.
  assert (Hw : "invalid" ∉ ["load"; "domcontentloaded"; "networkidle"]).
  { rewrite !not_elem_of_cons. repeat split; try discriminate. apply not_elem_of_nil. }
  split; [reflexivity|]. split; [exact Hw|].
  eexists. split.
  - apply (navigate_rejects_wait_until default_config _ "https://example.com" "invalid"
             initial eq_refl Hw).
  - reflexivity.
Defined.

(** Reading and closing flags of a page whose address and title change. *)
Lemma lookup_after_goto (l : list page_obj) p o landed title :
  l !! p = Some o ->
  alter (fun o => MkPage (pg_closed o) (pg_context o) (pg_viewport o) landed title) p l !! p
  = Some (MkPage (pg_closed o) (pg_context o) (pg_viewport o) landed title).
Proof. intros H. rewrite list_lookup_alter_eq, H. reflexivity. Qed.

(** X13. On a manager whose page is open, with valid arguments and no
    failing call, [navigate] makes exactly a [goto] with the arguments and
    [NAVIGATION_TIMEOUT] and then a [title] call on that page, and answers
    with the address and title the page landed on; the manager's
    references are untouched. *)
Theorem navigate_succeeds_on_live_page cfg env url wait_until s p :
  live_page s p ->
  (PyStr.startswith url "http://" || PyStr.startswith url "https://") = true ->
  wait_until ∈ ["load"; "domcontentloaded"; "networkidle"] ->
  on_goto env = None -> on_title env = None ->
  exists s',
    navigate cfg env url wait_until s
    = (Ret [("success", VBool true);
            ("url", VStr (nav_landed env));
            ("title", VStr (nav_title env))],
       s')
    /\ mgr s' = mgr s
    /\ page_url (world s') p = nav_landed env
    /\ trace (world s')
       = (trace (world s)
          ++ [EvGoto p url wait_until (NAVIGATION_TIMEOUT cfg); EvTitle p])%list.
Proof.
  intros [Hp Hc] Hu Hw Hg Ht. unfold navigate, get_page. rewrite Hu.
  rewrite (bool_decide_eq_true_2 _ Hw). cbn [negb]. unfold try_except.
  assert (Hn : needs_init s = false) by (unfold needs_init; rewrite Hp; exact Hc).
  rewrite (bind_ret _ _ _ _ _ (ensure_browser_skips (nav_init env) s Hn)), Hp.
  destruct s as [m w]. unfold is_closed in Hc. simpl in Hc.
  destruct (pages w !! p) as [o|] eqn:Ho; [|discriminate].
  unfold pw_goto, pw_title, page_url, is_closed. run_m. rewrite Hg, Ht, Ho, Hc. simpl.
  rewrite !(lookup_after_goto _ _ _ _ _ Ho). simpl. rewrite Hc. simpl.
  eexists. split; [reflexivity|]. simpl.
  rewrite !(lookup_after_goto _ _ _ _ _ Ho), <- app_assoc. auto.
Qed.

Lemma navigate_succeeds_on_live_page_witness :
  let env := MkNavEnv init_ok None "https://example.com/" "Example Domain" None in
  live_page acquired 0
  /\ exists s',
       navigate default_config env "https://example.com" "networkidle" acquired
       = (Ret [("success", VBool true);
               ("url", VStr "https://example.com/");
               ("title", VStr "Example Domain")],
          s')
       /\ mgr s' = mgr acquired
       /\ page_url (world s') 0 = "https://example.com/"
       /\ trace (world s')
          = (trace (world acquired)
             ++ [EvGoto 0 "https://example.com" "networkidle" 30000; EvTitle 0])%list.
Proof.
  intros env.
  assert (Hl : live_page acquired 0) by (split; reflexivity).
  split; [exact Hl|].
  apply (navigate_succeeds_on_live_page default_config env
           "https://example.com" "networkidle" acquired 0 Hl eq_refl);
    [in_list | reflexivity | reflexivity].
Defined.

(** X25. On a ready manager, after a [navigate] with valid arguments in
    which no call fails, the manager is still ready and [get_current_url]
    answers the address the page landed on, without changing anything. *)
Theorem current_url_after_navigate cfg env url wait_until s :
  is_initialized s = true ->
  (PyStr.startswith url "http://" || PyStr.startswith url "https://") = true ->
  wait_until ∈ ["load"; "domcontentloaded"; "networkidle"] ->
  on_goto env = None -> on_title env = None ->
  let s' := (navigate cfg env url wait_until s).2 in
  is_initialized s' = true
  /\ get_current_url s' = (Ret (Some (nav_landed env)), s').
Proof.
  intros Hi Hu Hw Hg Ht s'. subst s'.
  destruct (proj1 (is_initialized_true s) Hi) as (b & p & Hb & Hcn & Hp & Hc).
  assert (Hn : needs_init s = false) by (unfold needs_init; rewrite Hp; exact Hc).
  unfold navigate, get_page. rewrite Hu.
  rewrite (bool_decide_eq_true_2 _ Hw). cbn [negb]. unfold try_except.
  rewrite (bind_ret _ _ _ _ _ (ensure_browser_skips (nav_init env) s Hn)), Hp.
  destruct s as [m w]. unfold is_closed, is_connected in Hc, Hcn. simpl in *.
  destruct (pages w !! p) as [o|] eqn:Ho; [|discriminate].
  unfold pw_goto, pw_title, page_url, is_closed. run_m. rewrite Hg, Ht, Ho, Hc. simpl.
  rewrite !(lookup_after_goto _ _ _ _ _ Ho). simpl. rewrite Hc. simpl.
  unfold get_current_url, is_initialized, is_connected, is_closed, page_url. run_m.
  rewrite Hb, Hp, Hcn. rewrite !(lookup_after_goto _ _ _ _ _ Ho). simpl. rewrite Hc.
  split; reflexivity.
Qed.

Lemma current_url_after_navigate_witness :
  let env := MkNavEnv init_ok None "https://example.com/" "Example Domain" None in
  let s' := (navigate default_config env "https://example.com" "load" acquired).2 in
  is_initialized acquired = true
  /\ is_initialized s' = true
  /\ get_current_url s' = (Ret (Some "https://example.com/"), s').
Proof.
  intros env s'. split; [reflexivity|].
  apply (current_url_after_navigate default_config env "https://example.com" "load"
           acquired); try reflexivity.
  in_list.
Defined.

(** ** The screenshot tool, further *)

Lemma path_key : "path" ∉ ["success"; "error"; "error_type"; "suggestion"].
Proof. rewrite !not_elem_of_cons. repeat split; try discriminate. apply not_elem_of_nil. Qed.

(** X14. [screenshot] returns a dictionary for every input, environment
    and state: either [success] is true, or it is a failure envelope with
    a message, a suggestion, an error type of the taxonomy and the path
    echoed back. *)
Theorem screenshot_never_raises cfg env path full_page s :
  exists d,
    (screenshot cfg env path full_page s).1 = Ret d
    /\ (success_envelope d \/ failure_envelope error_types "path" path d).
Proof.
  unfold screenshot, try_except.
  match goal with
  | |- context [match ?body s with _ => _ end] =>
      assert (Hb : returns
                (fun d => success_envelope d \/ failure_envelope error_types "path" path d)
                body);
      [| specialize (Hb s); destruct (body s) as [[d|e] s'] ]
  end.
  - returning; try (right; apply failure_envelope_intro; [in_list | apply path_key]).
    left. reflexivity.
  - exists d. split; [reflexivity | exact (Hb d s' eq_refl)].
  - destruct (isinstance e PwTimeoutError); [|destruct (isinstance e PermissionError_)].
    + eexists. split; [reflexivity|]. right.
      apply failure_envelope_intro; [in_list | apply path_key].
    + eexists. split; [reflexivity|]. right.
      apply failure_envelope_intro; [in_list | apply path_key].
    + pose proof (parsed_type_known e) as Hp.
      destruct (parse_playwright_error e) as [t sg]. simpl in Hp.
      eexists. split; [reflexivity|]. right.
      apply failure_envelope_intro; [apply parsed_types_are_error_types, Hp | apply path_key].
Qed.

(** A [PermissionError] is no library timeout. *)
Lemma permission_not_timeout e :
  isinstance e PermissionError_ = true -> isinstance e PwTimeoutError = false.
Proof. destruct e as [[] msg]; simpl; intros H; try discriminate; reflexivity. Qed.

(** X15. When making the parent directory of a valid path raises a
    [PermissionError], [screenshot] answers with a [FileSystemError]
    envelope that carries the message, and no call on the browser side was
    made. *)
Theorem screenshot_permission_denied cfg env path full_page s e :
  path_blank path = false -> extension_ok path = true ->
  on_mkdir env = Some e -> isinstance e PermissionError_ = true ->
  let parent := Pathlib.parent (Pathlib.Path path) in
  screenshot cfg env path full_page s
  = (Ret [("success", VBool false);
          ("error", VStr ("Permission denied: " ++ exc_msg e));
          ("error_type", VStr "FileSystemError");
          ("suggestion", VStr "Check file/directory write permissions");
          ("path", VStr path)],
     (log (EvMkdir parent) s).2).
Proof.
  intros Hb Hx Hm He parent. unfold screenshot, fs_mkdir. rewrite Hb, Hx, Hm.
  run_m. rewrite (permission_not_timeout e He), He. reflexivity.
Qed.

Lemma screenshot_permission_denied_witness :
  let e := Exn PermissionError_ "[Errno 13] Permission denied: '/root/shots'" in
  let env := MkShotEnv init_ok (Some e) None 0 "" None in
  path_blank "/root/shots/a.png" = false
  /\ extension_ok "/root/shots/a.png" = true
  /\ isinstance e PermissionError_ = true
  /\ exists d s',
       screenshot default_config env "/root/shots/a.png" false initial = (Ret d, s')
       /\ dict_get "error_type" d = Some (VStr "FileSystemError")
       /\ trace (world s') = [EvMkdir (MkPath "/" ["root"; "shots"])].
Proof.
  intros e env. split; [reflexivity|]. split; [reflexivity|]. split; [reflexivity|].
  eexists _, _. split.
  - apply (screenshot_permission_denied default_config env "/root/shots/a.png" false
             initial e); reflexivity.
  - split; reflexivity.
Defined.

(** X16. On a ready manager, with a valid path, the parent directory
    makeable and no failing call, [screenshot] reports the size of the file
    the browser wrote at the path and the live viewport of the page; the
    file and its parent directory exist afterwards. *)
Theorem screenshot_succeeds_on_ready_manager cfg env path full_page s p width height :
  live_page s p -> is_initialized s = true ->
  viewport_size (world s) p = Some (width, height) ->
  path_blank path = false -> extension_ok path = true ->
  mkdir_raises env s (Pathlib.parent (Pathlib.Path path)) = false ->
  on_screenshot env = None -> on_stat env = None ->
  exists s',
    screenshot cfg env path full_page s
    = (Ret [("success", VBool true);
            ("path", VStr (shot_resolved env));
            ("file_size", VInt (shot_size env));
            ("full_page", VBool full_page);
            ("viewport", VDict [("width", VInt width); ("height", VInt height)])],
       s')
    /\ (Pathlib.Path path, shot_size env) ∈ files (world s')
    /\ is_dir (world s') (Pathlib.parent (Pathlib.Path path)) = true.
Proof.
  intros [Hp Hc] Hi Hv Hb Hx Hm Hs Hst. destruct s as [m w]. simpl in Hp, Hc.
  pose proof (fs_mkdir_spec env (Pathlib.parent (Pathlib.Path path)) (MkState m w)) as Hspec.
  rewrite Hm in Hspec. destruct Hspec as (s1 & Hmk & Hdir & _).
  assert (Hfr : mgr s1 = m /\ pages (world s1) = pages w
                /\ browsers (world s1) = browsers w
                /\ dirs_and_calls (dirs (world s1)) (trace (world s1)) s1).
  { revert Hmk. unfold fs_mkdir. run_m.
    destruct (on_mkdir env); simpl; [discriminate|].
    destruct (existsb _ _); simpl; [discriminate|].
    intros [= <-]. simpl. repeat split. exists []. symmetry. apply app_nil_r. }
  destruct Hfr as (Hm1 & Hpg & Hbr & Hdc).
  assert (Hp1 : _page (mgr s1) = Some p) by (rewrite Hm1; exact Hp).
  assert (Hc1 : is_closed (world s1) p = false) by (unfold is_closed; rewrite Hpg; exact Hc).
  assert (Hn : needs_init s1 = false) by (unfold needs_init; rewrite Hp1; exact Hc1).
  unfold screenshot, get_page. rewrite Hb, Hx. cbn [negb]. unfold try_except.
  rewrite (bind_ret _ _ _ _ _ Hmk).
  rewrite (bind_ret _ _ _ _ _ (ensure_browser_skips (shot_init env) s1 Hn)), Hp1.
  clear Hmk Hm Hdc. destruct s1 as [m1 w1]. simpl in *.
  unfold is_closed in Hc1.
  unfold pw_screenshot, fs_stat_size, get_viewport_size, is_initialized, viewport_size,
    is_closed, is_connected in *.
  run_m. rewrite Hs, Hst, Hc1. simpl. rewrite decide_True by reflexivity. simpl.
  subst m1. rewrite Hp, Hpg, Hbr. simpl.
  destruct (_browser m) as [b|]; [|discriminate]. rewrite Hp in Hi. rewrite Hi, Hv.
  eexists. split; [reflexivity|]. simpl. split; [apply list_elem_of_here|].
  unfold is_dir in *. exact Hdir.
Qed.

Lemma screenshot_succeeds_on_ready_manager_witness :
  let env := MkShotEnv init_ok None None 20480 "/srv/shots/home.png" None in
  live_page acquired 0
  /\ mkdir_raises env acquired (Pathlib.parent (Pathlib.Path "shots/home.png")) = false
  /\ exists s',
       screenshot default_config env "shots/home.png" true acquired
       = (Ret [("success", VBool true);
               ("path", VStr "/srv/shots/home.png");
               ("file_size", VInt 20480);
               ("full_page", VBool true);
               ("viewport", VDict [("width", VInt 1920); ("height", VInt 1080)])],
          s')
       /\ (Pathlib.Path "shots/home.png", 20480) ∈ files (world s')
       /\ is_dir (world s') (Pathlib.parent (Pathlib.Path "shots/home.png")) = true.
Proof.
  intros env.
  assert (Hl : live_page acquired 0) by (split; reflexivity).
  assert (Hm : mkdir_raises env acquired
                 (Pathlib.parent (Pathlib.Path "shots/home.png")) = false)
    by (vm_compute; reflexivity).
  split; [exact Hl|]. split; [exact Hm|].
  apply (screenshot_succeeds_on_ready_manager default_config env "shots/home.png" true
           acquired 0 1920 1080 Hl); try reflexivity; exact Hm.
Defined.

(** ** The element tools *)

Lemma selector_key : "selector" ∉ ["success"; "error"; "error_type"; "suggestion"].
Proof. rewrite !not_elem_of_cons. repeat split; try discriminate. apply not_elem_of_nil. Qed.

(** One locator call: it is recorded, then fails on a closed page, raises
    what the environment says, or answers. *)
Lemma elem_call_run {A} e p fault (answer : A) t :
  elem_call e p fault answer t
  = (if is_closed (world (base t)) p then Raise (Exn PwError closed_msg)
     else match fault with
          | Some x => Raise x
          | None => Ret answer
          end,
     MkToolState (base t) (calls t ++ [e])).
Proof.
  unfold elem_call. run_m. destruct (is_closed _ p); [reflexivity|].
  destruct fault; reflexivity.
Qed.

(** Inside a tool, a manager with an open page hands it out as it is. *)
Lemma lift_get_page_live env t p :
  live_page (base t) p -> lift_base (get_page env) t = (Ret (Some p), t).
Proof.
  intros [Hp Hc]. unfold lift_base, get_page.
  rewrite (ensure_browser_skips env (base t)); [|unfold needs_init; rewrite Hp; exact Hc].
  rewrite Hp. destruct t; reflexivity.
Qed.

(** X17. On an empty or blank selector, [click_element], [fill_input] and
    [extract_text] all answer with the same validation envelope, which
    echoes the selector, and leave the state, and the record of locator
    calls, as they were. *)
Theorem blank_selector_rejected cfg env selector text t :
  selector_blank selector = true ->
  click_element cfg env selector t = (Ret (selector_error selector), t)
  /\ fill_input cfg env selector text t = (Ret (selector_error selector), t)
  /\ extract_text cfg env selector t = (Ret (selector_error selector), t)
  /\ failure_envelope ["ValidationError"] "selector" selector (selector_error selector).
Proof.
  intros H. unfold click_element, fill_input, extract_text, try_except.
  rewrite H. repeat split; try reflexivity.
  - eexists; reflexivity.
  - eexists; split; [reflexivity | in_list].
  - eexists; reflexivity.
Qed.

Lemma blank_selector_rejected_witness :
  selector_blank "  " = true
  /\ click_element default_config (MkElemEnv init_ok None None None None None None)
       "  " (MkToolState initial [])
     = (Ret (selector_error "  "), MkToolState initial []).
Proof.
  split; [reflexivity|].
  apply (blank_selector_rejected default_config
           (MkElemEnv init_ok None None None None None None) "  " ""
           (MkToolState initial []) eq_refl).
Defined.

(** The common shape of the proof that a tool answers with an envelope:
    what the [try] block returns is an envelope, and so is what each
    [except] clause builds. *)
Ltac tool_envelope t selector :=
  match goal with
  | |- context [match ?body t with _ => _ end] =>
      let Hb := fresh "Hb" in
      assert (Hb : returns
         (fun d => success_envelope d
                   \/ failure_envelope error_types "selector" selector d) body);
      [ returning;
        try (right; apply failure_envelope_intro; [in_list | apply selector_key]);
        left; reflexivity
      | specialize (Hb t);
        let d := fresh "d" in let e := fresh "e" in let t' := fresh "t'" in
        destruct (body t) as [[d|e] t'];
        [ exists d; split; [reflexivity | exact (Hb d t' eq_refl)]
        | let He := fresh "He" in
          match goal with
          | |- context [create_error_response "ElementNotFound" ?m ?sg] =>
              pose proof (handler_envelope "selector" selector "ElementNotFound" m sg e)
                as He
          end;
          destruct (isinstance e PwTimeoutError);
          [| destruct (parse_playwright_error e)];
          (eexists; split; [reflexivity|]; right; apply He;
           [in_list | apply selector_key]) ] ]
  end.

(** X18. [click_element], [fill_input] and [extract_text] return a
    dictionary for every input, environment and state: either [success]
    is true, or a failure envelope with an error type of the taxonomy and
    the selector echoed back. *)
Theorem element_tools_never_raise cfg env selector text t :
  let shape d := success_envelope d \/ failure_envelope error_types "selector" selector d in
  (exists d, (click_element cfg env selector t).1 = Ret d /\ shape d)
  /\ (exists d, (fill_input cfg env selector text t).1 = Ret d /\ shape d)
  /\ (exists d, (extract_text cfg env selector t).1 = Ret d /\ shape d).
Proof.
  intros shape. subst shape. unfold click_element, fill_input, extract_text, try_except.
  split; [|split]; tool_envelope t selector.
Qed.

(** X19. On a manager whose page is open, a click that runs into the
    library's timeout is answered with an [ElementNotFound] envelope
    naming the selector and [ELEMENT_TIMEOUT]; the click is the only
    locator call made, the text is never read. *)
Theorem click_timeout_is_element_not_found cfg env selector t p e :
  selector_blank selector = false -> live_page (base t) p ->
  on_click env = Some e -> isinstance e PwTimeoutError = true ->
  click_element cfg env selector t
  = (Ret [("success", VBool false);
          ("error", VStr ("Element '" ++ selector ++ "' not found or not clickable within "
                          ++ PyStr.of_int (ELEMENT_TIMEOUT cfg) ++ "ms"));
          ("error_type", VStr "ElementNotFound");
          ("suggestion", VStr "Check if selector is correct and element is visible");
          ("selector", VStr selector)],
     MkToolState (base t) (calls t ++ [EvClick p selector (ELEMENT_TIMEOUT cfg)])).
Proof.
  intros Hb Hl Hf He. unfold click_element, try_except. rewrite Hb.
  rewrite (bind_ret _ _ _ _ _ (lift_get_page_live _ t p Hl)).
  unfold bind at 1. rewrite elem_call_run, Hf. destruct Hl as [_ ->].
  rewrite He. reflexivity.
Qed.

Lemma click_timeout_is_element_not_found_witness :
  let e := Exn PwTimeoutError "Timeout 10000ms exceeded." in
  let env := MkElemEnv init_ok (Some e) None None None None None in
  let t := MkToolState acquired [] in
  selector_blank "button.does-not-exist" = false
  /\ live_page (base t) 0
  /\ isinstance e PwTimeoutError = true
  /\ exists d,
       click_element default_config env "button.does-not-exist" t
       = (Ret d,
          MkToolState (base t)
            (calls t ++ [EvClick 0 "button.does-not-exist"
                           (ELEMENT_TIMEOUT default_config)]))
       /\ dict_get "error_type" d = Some (VStr "ElementNotFound").
Proof.
  intros e env t.
  assert (Hl : live_page (base t) 0) by (split; reflexivity).
  split; [reflexivity|]. split; [exact Hl|]. split; [reflexivity|].
  eexists. split.
  - apply (click_timeout_is_element_not_found default_config env
             "button.does-not-exist" t 0 e eq_refl Hl eq_refl eq_refl).
  - reflexivity.
Defined.

(** X20. On a manager whose page is open, an [extract_text] whose wait
    runs into the library's timeout is answered with an [ElementNotFound]
    envelope naming the selector and [ELEMENT_TIMEOUT]; the wait is the
    only locator call made. *)
Theorem extract_timeout_is_element_not_found cfg env selector t p e :
  selector_blank selector = false -> live_page (base t) p ->
  on_wait_for env = Some e -> isinstance e PwTimeoutError = true ->
  extract_text cfg env selector t
  = (Ret [("success", VBool false);
          ("error", VStr ("Element '" ++ selector ++ "' not found within "
                          ++ PyStr.of_int (ELEMENT_TIMEOUT cfg) ++ "ms"));
          ("error_type", VStr "ElementNotFound");
          ("suggestion", VStr "Check if selector is correct and element exists");
          ("selector", VStr selector)],
     MkToolState (base t) (calls t ++ [EvWaitFor p selector (ELEMENT_TIMEOUT cfg)])).
Proof.
  intros Hb Hl Hf He. unfold extract_text, try_except. rewrite Hb.
  rewrite (bind_ret _ _ _ _ _ (lift_get_page_live _ t p Hl)).
  unfold bind at 1. rewrite elem_call_run, Hf. destruct Hl as [_ ->].
  rewrite He. reflexivity.
Qed.

Lemma extract_timeout_is_element_not_found_witness :
  let e := Exn PwTimeoutError "Timeout 10000ms exceeded." in
  let env := MkElemEnv init_ok None None None (Some e) None None in
  let t := MkToolState acquired [] in
  selector_blank "div.nonexistent-element" = false
  /\ live_page (base t) 0
  /\ isinstance e PwTimeoutError = true
  /\ exists d,
       extract_text default_config env "div.nonexistent-element" t
       = (Ret d,
          MkToolState (base t)
            (calls t ++ [EvWaitFor 0 "div.nonexistent-element"
                           (ELEMENT_TIMEOUT default_config)]))
       /\ dict_get "error_type" d = Some (VStr "ElementNotFound").
Proof.
  intros e env t.
  assert (Hl : live_page (base t) 0) by (split; reflexivity).
  split; [reflexivity|]. split; [exact Hl|]. split; [reflexivity|].
  eexists. split.
  - apply (extract_timeout_is_element_not_found default_config env
             "div.nonexistent-element" t 0 e eq_refl Hl eq_refl eq_refl).
  - reflexivity.
Defined.

Lemma stripped_len_agrees text : stripped_len text = py_len (strip_or_empty text).
Proof. destruct text as [x|]; [|reflexivity]. simpl. destruct (PyStr.truthy x); reflexivity. Qed.

(** X21. In every success answer of [extract_text], [text_length] is the
    length of the [text] returned, and the selector is echoed back. *)
Theorem extract_text_length_agrees cfg env selector t d t' :
  extract_text cfg env selector t = (Ret d, t') ->
  success_envelope d ->
  exists text,
    dict_get "text" d = Some (VStr text)
    /\ dict_get "text_length" d = Some (VInt (py_len text))
    /\ dict_get "selector" d = Some (VStr selector).
Proof.
  unfold extract_text, try_except.
  match goal with
  | |- context [match ?body t with _ => _ end] =>
      assert (Hb : returns
         (fun d => success_envelope d ->
                   exists text,
                     dict_get "text" d = Some (VStr text)
                     /\ dict_get "text_length" d = Some (VInt (py_len text))
                     /\ dict_get "selector" d = Some (VStr selector)) body);
      [| specialize (Hb t); destruct (body t) as [[d0|e] t0] ]
  end.
  - returning; [intros H; discriminate H|].
    intros _. eexists. split; [reflexivity|]. split; [|reflexivity].
    simpl. rewrite stripped_len_agrees. reflexivity.
  - intros [= <- <-]. exact (Hb d0 t0 eq_refl).
  - destruct (isinstance e PwTimeoutError); [|destruct (parse_playwright_error e)];
      intros [= <- <-] [=].
Qed.

Lemma extract_text_length_agrees_witness :
  let env := MkElemEnv init_ok None None None None None (Some "  Example Domain ") in
  let t := MkToolState acquired [] in
  let d := [("success", VBool true);
            ("selector", VStr "h1");
            ("text", VStr "Example Domain");
            ("text_length", VInt 14)] in
  let t' := MkToolState acquired [EvWaitFor 0 "h1" 10000; EvTextContent 0 "h1"] in
  extract_text default_config env "h1" t = (Ret d, t')
  /\ success_envelope d
  /\ exists text,
       dict_get "text" d = Some (VStr text)
       /\ dict_get "text_length" d = Some (VInt (py_len text))
       /\ dict_get "selector" d = Some (VStr "h1").
Proof.
  intros env t d t'.
  assert (H : extract_text default_config env "h1" t = (Ret d, t'))
    by (vm_compute; reflexivity).
  split; [exact H|]. split; [reflexivity|].
  exact (extract_text_length_agrees default_config env "h1" t d t' H eq_refl).
Defined.

(** X22. On a manager whose page is open, [fill_input] clears the input
    before it fills it, both with [ELEMENT_TIMEOUT], and never fills after
    a failed clear; when neither call fails it reports the length of the
    text given; the manager and its world are untouched. *)
Theorem fill_input_clears_first cfg env selector text t p :
  selector_blank selector = false -> live_page (base t) p ->
  let clear := EvClear p selector (ELEMENT_TIMEOUT cfg) in
  let fill := EvFill p selector text (ELEMENT_TIMEOUT cfg) in
  let r := fill_input cfg env selector text t in
  base r.2 = base t
  /\ match on_clear env, on_fill env with
     | None, None =>
         r.1 = Ret [("success", VBool true);
                    ("selector", VStr selector);
                    ("text_length", VInt (py_len text))]
         /\ calls r.2 = (calls t ++ [clear; fill])%list
     | None, Some _ =>
         (exists d, r.1 = Ret d /\ dict_get "success" d = Some (VBool false))
         /\ calls r.2 = (calls t ++ [clear; fill])%list
     | Some _, _ =>
         (exists d, r.1 = Ret d /\ dict_get "success" d = Some (VBool false))
         /\ calls r.2 = (calls t ++ [clear])%list
     end.
Proof.
  intros Hb Hl clear fill r. subst r clear fill. unfold fill_input, try_except. rewrite Hb.
  rewrite (bind_ret _ _ _ _ _ (lift_get_page_live _ t p Hl)).
  unfold bind. rewrite !elem_call_run. destruct Hl as [_ Hc]. simpl. rewrite Hc.
  destruct (on_clear env) as [e|]; [|destruct (on_fill env) as [e|]]; simpl.
  - destruct (isinstance e PwTimeoutError); [|destruct (parse_playwright_error e)];
      (split; [reflexivity|]; split; [eexists; split; reflexivity | reflexivity]).
  - rewrite ?elem_call_run. simpl. rewrite ?Hc.
    destruct (isinstance e PwTimeoutError); [|destruct (parse_playwright_error e)];
      (split; [reflexivity|]; split;
       [eexists; split; reflexivity | simpl; rewrite <- app_assoc; reflexivity]).
  - rewrite ?elem_call_run. simpl. rewrite ?Hc. simpl.
    split; [reflexivity|]. split; [reflexivity|]. rewrite <- app_assoc. reflexivity.
Qed.

Lemma fill_input_clears_first_witness :
  let env := MkElemEnv init_ok None None None None None None in
  let t := MkToolState acquired [] in
  let r := fill_input default_config env "input[name=q]" "rocq" t in
  selector_blank "input[name=q]" = false
  /\ live_page (base t) 0
  /\ base r.2 = base t
  /\ r.1 = Ret [("success", VBool true);
                ("selector", VStr "input[name=q]");
                ("text_length", VInt 4)]
  /\ calls r.2 = [EvClear 0 "input[name=q]" 10000; EvFill 0 "input[name=q]" "rocq" 10000].
Proof.
  intros env t r.
  assert (Hl : live_page (base t) 0) by (split; reflexivity).
  split; [reflexivity|]. split; [exact Hl|].
  pose proof (fill_input_clears_first default_config env "input[name=q]" "rocq" t 0
                eq_refl Hl) as (Hb & Hr & Hc).
  split; [exact Hb|]. split; [exact Hr | exact Hc].
Defined.

(** ** [get_page_info] *)

(** X23. [get_page_info] returns a dictionary for every environment and
    state: either [success] is true, or [success] is false with one of the
    five parsed error types. *)
Theorem get_page_info_never_raises env s :
  exists d,
    (get_page_info env s).1 = Ret d
    /\ (success_envelope d
        \/ (dict_get "success" d = Some (VBool false)
            /\ exists error_type,
                 dict_get "error_type" d = Some (VStr error_type)
                 /\ error_type ∈ parsed_types)).
Proof.
  unfold get_page_info, try_except.
  match goal with
  | |- context [match ?body s with _ => _ end] =>
      assert (Hb : returns success_envelope body);
      [| specialize (Hb s); destruct (body s) as [[d|e] s'] ]
  end.
  - returning. reflexivity.
  - exists d. split; [reflexivity|]. left. exact (Hb d s' eq_refl).
  - pose proof (parsed_type_known e) as Hp.
    destruct (parse_playwright_error e) as [ty sg]. simpl in Hp.
    eexists. split; [reflexivity|]. right. split; [reflexivity|].
    exists ty. split; [reflexivity | exact Hp].
Qed.

(** X24. On a ready manager, when reading the title does not fail,
    [get_page_info] answers with the address of the page, the title of the
    page and its live viewport, after exactly one [title] call; the
    manager's references are untouched. *)
Theorem get_page_info_on_ready_manager env s p width height :
  live_page s p -> is_initialized s = true ->
  viewport_size (world s) p = Some (width, height) ->
  info_on_title env = None ->
  exists s',
    get_page_info env s
    = (Ret [("success", VBool true);
            ("url", VStr (page_url (world s) p));
            ("title", VStr (page_title (world s) p));
            ("viewport", VDict [("width", VInt width); ("height", VInt height)])],
       s')
    /\ mgr s' = mgr s
    /\ trace (world s') = (trace (world s) ++ [EvTitle p])%list.
Proof.
  intros [Hp Hc] Hi Hv Ht.
  assert (Hn : needs_init s = false) by (unfold needs_init; rewrite Hp; exact Hc).
  unfold get_page_info, try_except, get_page.
  rewrite (bind_ret _ _ _ _ _ (ensure_browser_skips (info_init env) s Hn)), Hp.
  destruct s as [m w].
  unfold pw_title, get_viewport_size, is_initialized, viewport_size, is_closed,
    is_connected, page_title in *.
  run_m. rewrite Ht, Hc. simpl. rewrite Hp.
  destruct (_browser m) as [b|]; [|discriminate]. rewrite Hp in Hi. rewrite Hi, Hv.
  eexists. split; [reflexivity|]. split; reflexivity.
Qed.

(** The state after a first acquisition and a navigation: the page has an
    address and a title of its own. *)
Lemma get_page_info_on_ready_manager_witness :
  let s := (navigate default_config
              (MkNavEnv init_ok None "https://example.com/" "Example Domain" None)
              "https://example.com" "load" acquired).2 in
  live_page s 0
  /\ is_initialized s = true
  /\ page_title (world s) 0 = "Example Domain"
  /\ exists s',
       get_page_info (MkInfoEnv init_ok None) s
       = (Ret [("success", VBool true);
               ("url", VStr (page_url (world s) 0));
               ("title", VStr (page_title (world s) 0));
               ("viewport", VDict [("width", VInt 1920); ("height", VInt 1080)])],
          s')
       /\ mgr s' = mgr s
       /\ trace (world s') = (trace (world s) ++ [EvTitle 0])%list.
Proof.
  intros s.
  assert (Hl : live_page s 0) by (split; vm_compute; reflexivity).
  split; [exact Hl|]. split; [vm_compute; reflexivity|].
  split; [vm_compute; reflexivity|].
  apply (get_page_info_on_ready_manager (MkInfoEnv init_ok None) s 0 1920 1080 Hl);
    vm_compute; reflexivity.
Defined.
